(** * elastictools: the index loader ([backup/load.py])

    A shallow embedding of [Loader] and a verification of its batching,
    limit, error and mode behaviour.

    Python values are the ones [ujson.loads] can build; dictionaries are
    finite maps.  The effects of a run (files opened, lines read, the
    index-creation call, bulk tasks scheduled, the final wait, log lines)
    are recorded as a trace of events, and an exception ends the run with
    the trace produced so far. *)

From Stdlib Require Import ZArith Lia Ascii.
From stdpp Require Import gmap strings list pretty.

Set Warnings "-register-all,-notation-for-abbreviation".

Local Open Scope Z_scope.

(** ** Python values *)

(** What [ujson.loads] returns: [None], booleans, integers (unbounded),
    floats (here a mantissa and a binary exponent: the loader only tests
    them for truth and prints them), strings, lists and dictionaries. *)
Inductive pyval : Type :=
  | PNone
  | PBool (b : bool)
  | PInt (n : Z)
  | PFloat (m e : Z)
  | PStr (s : string)
  | PList (l : list pyval)
  | PDict (d : gmap string pyval).

(** The exceptions the loader can meet. *)
Inductive exn : Type :=
  | JSONDecodeError              (* ujson.loads on a line that is not JSON *)
  | KeyError (key : string)      (* d[key] or d.pop(key) on an absent key *)
  | TypeError                    (* subscript with a string on a non-dict *)
  | AttributeError               (* .pop or .get on a value without it *)
  | ZeroDivisionError            (* i % 0 *)
  | ValueError                   (* asyncio.wait on an empty collection *)
  | FileNotFoundError (path : string)
  | ClientError (info : string). (* raised by the elasticsearch client *)

(** ** Effects: a trace of events and an outcome *)

(** What a run does to the world, in order: a file is opened; the read
    loop takes a line of [data.json]; [es.indices.create] is called;
    a bulk task is created on a copy of the buffer (the task is named by
    that batch); [asyncio.wait] is called on the tasks created so far;
    the logger prints a line. *)
Inductive event : Type :=
  | Open (path : string)
  | ReadLine (line : string)
  | IndicesCreate (index : string) (body : pyval)
  | CreateTask (actions : list pyval)
  | Wait (tasks : list (list pyval))
  | LogInfo (msg : string).

(** A computation yields the events it performed and then either an
    exception or a value. *)
Definition M (A : Type) : Type := list event * (exn + A).

Definition ret {A} (a : A) : M A := ([], inr a).

Definition raise {A} (e : exn) : M A := ([], inl e).

Definition emit (ev : event) : M unit := ([ev], inr tt).

Definition bind {A B} (m : M A) (f : A -> M B) : M B :=
  match m with
  | (t, inl e) => (t, inl e)
  | (t, inr a) => let '(t', r) := f a in (t ++ t', r)
  end.

Definition lift {A} (r : exn + A) : M A := ([], r).

Declare Scope py_scope.
Delimit Scope py_scope with py.
Notation "x <- c1 ;; c2" := (bind c1 (fun x => c2))
  (at level 100, c1 at next level, right associativity) : py_scope.
Notation "c1 ;;; c2" := (bind c1 (fun _ => c2))
  (at level 100, right associativity) : py_scope.
Local Open Scope py_scope.

Definition trace {A} (m : M A) : list event := fst m.
Definition outcome {A} (m : M A) : exn + A := snd m.

(** The batches handed to [asyncio.create_task], in scheduling order. *)
Fixpoint submitted (t : list event) : list (list pyval) :=
  match t with
  | [] => []
  | CreateTask b :: t' => b :: submitted t'
  | _ :: t' => submitted t'
  end.

(** The tasks handed to [asyncio.wait]. *)
Fixpoint awaited (t : list event) : list (list pyval) :=
  match t with
  | [] => []
  | Wait bs :: t' => bs ++ awaited t'
  | _ :: t' => awaited t'
  end.

(** The lines the read loop took from [data.json]. *)
Fixpoint lines_read (t : list event) : list string :=
  match t with
  | [] => []
  | ReadLine l :: t' => l :: lines_read t'
  | _ :: t' => lines_read t'
  end.

Fixpoint logged (t : list event) : list string :=
  match t with
  | [] => []
  | LogInfo s :: t' => s :: logged t'
  | _ :: t' => logged t'
  end.

Fixpoint opened (t : list event) : list string :=
  match t with
  | [] => []
  | Open p :: t' => p :: opened t'
  | _ :: t' => opened t'
  end.

Fixpoint create_calls (t : list event) : list (string * pyval) :=
  match t with
  | [] => []
  | IndicesCreate i b :: t' => (i, b) :: create_calls t'
  | _ :: t' => create_calls t'
  end.

(** ** Python built-ins used by the loader *)

(** [bool(v)]. *)
Definition py_truthy (v : pyval) : bool :=
  match v with
  | PNone => false
  | PBool b => b
  | PInt n => negb (n =? 0)
  | PFloat m _ => negb (m =? 0)
  | PStr s => negb (String.eqb s "")
  | PList l => match l with [] => false | _ => true end
  | PDict d => negb (bool_decide (d = ∅))
  end.

(** [v[key]] with a string key. *)
Definition py_getitem (v : pyval) (key : string) : exn + pyval :=
  match v with
  | PDict d => match d !! key with
               | Some x => inr x
               | None => inl (KeyError key)
               end
  | _ => inl TypeError
  end.

(** [v.pop(key)] with no default: the dictionary without [key]. *)
Definition py_pop (v : pyval) (key : string) : exn + pyval :=
  match v with
  | PDict d => match d !! key with
               | Some _ => inr (PDict (delete key d))
               | None => inl (KeyError key)
               end
  | PList _ => inl TypeError
  | _ => inl AttributeError
  end.

(** [v.get(key)]. *)
Definition py_get (v : pyval) (key : string) : exn + pyval :=
  match v with
  | PDict d => inr (default PNone (d !! key))
  | _ => inl AttributeError
  end.

(** [i % n] on integers: the sign follows the divisor, as [Z.modulo] does;
    a zero divisor raises. *)
Definition py_mod (i n : Z) : exn + Z :=
  if n =? 0 then inl ZeroDivisionError else inr (i mod n).

(** [os.path.join(a, b)] on POSIX. *)
Definition os_path_join (a b : string) : string :=
  if String.prefix "/" b then b
  else if String.eqb a "" then b
  else match String.get (Nat.pred (String.length a)) a with
       | Some "/"%char => a +:+ b
       | _ => a +:+ "/" +:+ b
       end.

(** [self.limit and i >= self.limit]: [None] and [0] are both false. *)
Definition limit_reached (limit : option Z) (i : Z) : bool :=
  match limit with
  | None => false
  | Some l => negb (l =? 0) && (l <=? i)
  end.




(** ** The loader *)

Record Loader : Type := {
  elastic_address : string;
  index : string;
  input_dir : string;
  chunk_size : Z;
  mode : string;
  limit : option Z;
  connection_pool_size : Z
}.

(** A file system: the lines of each file that exists. *)
Definition py_open (fs : gmap string (list string)) (path : string)
  : M (list string) :=
  emit (Open path) ;;;
  match fs !! path with
  | Some ls => ret ls
  | None => raise (FileNotFoundError path)
  end.

(** [f.readline()] on a file just opened: its first line, or the empty
    string at end of file. *)
Definition readline (ls : list string) : string :=
  match ls with
  | [] => ""
  | l :: _ => l
  end.

(** The same loader with no limit. *)
Definition no_limit (l : Loader) : Loader :=
  {| elastic_address := elastic_address l;
     index := index l;
     input_dir := input_dir l;
     chunk_size := chunk_size l;
     mode := mode l;
     limit := None;
     connection_pool_size := connection_pool_size l |}.

(** The same loader with another chunk size. *)
Definition with_chunk_size (c : Z) (l : Loader) : Loader :=
  {| elastic_address := elastic_address l;
     index := index l;
     input_dir := input_dir l;
     chunk_size := c;
     mode := mode l;
     limit := limit l;
     connection_pool_size := connection_pool_size l |}.

(** ** Entering and leaving the loader *)

(** [s.split(sep)] for a one-character separator: the pieces between
    the occurrences of [sep], empty pieces included. *)
Fixpoint py_split (sep : ascii) (s : string) : list string :=
  match s with
  | EmptyString => [EmptyString]
  | String c s' =>
      if Ascii.eqb c sep then EmptyString :: py_split sep s'
      else match py_split sep s' with
           | [] => [String c EmptyString]
           | w :: ws => String c w :: ws
           end
  end.

(** How many times [c] occurs in [s]. *)
Fixpoint count_char (c : ascii) (s : string) : nat :=
  match s with
  | EmptyString => 0
  | String c' s' => (if Ascii.eqb c' c then 1 else 0) + count_char c s'
  end.

(** What [main] does around a run: the client is built, connections are
    added to its pool, a handler is added to the logger, the run's own
    events happen, the client is closed, the logger's handlers are
    closed. *)
Inductive client_event : Type :=
  | NewClient (hosts : string)
  | AddConnection (host : string) (port : Z)
  | AddHandler
  | Run (ev : event)
  | CloseClient
  | CloseHandler.

Fixpoint clients_made (t : list client_event) : nat :=
  match t with
  | [] => 0
  | NewClient _ :: t' => S (clients_made t')
  | _ :: t' => clients_made t'
  end.

Fixpoint clients_closed (t : list client_event) : nat :=
  match t with
  | [] => 0
  | CloseClient :: t' => S (clients_closed t')
  | _ :: t' => clients_closed t'
  end.

Fixpoint connections_added (t : list client_event) : list (string * Z) :=
  match t with
  | [] => []
  | AddConnection h p :: t' => (h, p) :: connections_added t'
  | _ :: t' => connections_added t'
  end.

Fixpoint run_events (t : list client_event) : list event :=
  match t with
  | [] => []
  | Run ev :: t' => ev :: run_events t'
  | _ :: t' => run_events t'
  end.

(** ** A small export, to run the loader on *)

Definition sample_settings : gmap string pyval :=
  <["routing" := PDict ∅]> (<["provided_name" := PStr "books"]>
  (<["creation_date" := PStr "1600000000000"]> (<["uuid" := PStr "Zx3"]>
  (<["version" := PDict ∅]> (<["number_of_shards" := PStr "1"]> ∅))))).

Definition sample_stripped : gmap string pyval :=
  <["number_of_shards" := PStr "1"]> ∅.

Definition sample_doc (id : pyval) : pyval :=
  PDict (<["_id" := id]> (<["_source" := PDict ∅]> ∅)).

(** A stand-in for [ujson.loads], defined on the few lines used below. *)
Definition sample_loads (s : string) : option pyval :=
  if String.eqb s "bad" then None
  else if String.eqb s "settings" then
    Some (PDict (<["index" := PDict sample_settings]> ∅))
  else if String.eqb s "stripped" then
    Some (PDict (<["index" := PDict sample_stripped]> ∅))
  else if String.eqb s "mappings" then Some (PDict ∅)
  else if String.eqb s "noid" then Some (PDict (<["_source" := PDict ∅]> ∅))
  else if String.eqb s "7" then Some (sample_doc (PInt 7))
  else Some (sample_doc (PStr s)).

Definition sample_repr (v : pyval) : string := "<repr>".

(** A stand-in for [int], defined on one port. *)
Definition sample_int (s : string) : option Z :=
  if String.eqb s "9200" then Some 9200 else None.

(** A cluster that answers every create-index call with [ack]. *)
Definition sample_cluster (ack : bool) (index : string) (body : pyval)
  : exn + pyval :=
  inr (PDict (<["acknowledged" := PBool ack]> ∅)).

Definition sample_fs (settings : string) (data : list string)
  : gmap string (list string) :=
  <["dump/settings.json" := [settings]]>
  (<["dump/mappings.json" := ["mappings"]]>
  (<["dump/data.json" := data]> ∅)).

Definition sample_loader (cs : Z) (lim : option Z) (md : string) : Loader :=
  {| elastic_address := "localhost:9200";
     index := "books";
     input_dir := "dump";
     chunk_size := cs;
     mode := md;
     limit := lim;
     connection_pool_size := 5 |}.

(** The action the loader builds for a sample line with id [id]. *)
Definition sample_action (id : string) : pyval :=
  PDict (<["_index" := PStr "books"]> (<["_id" := PStr id]>
        (<["_source" := PDict ∅]> ∅))).

Section Loader.

(** The libraries the loader calls are taken as they are:
    [ujson.loads] ([None] when it raises), [repr] on the values whose
    [str] is their [repr], and [es.indices.create]. *)
Variable ujson_loads : string -> option pyval.
Variable py_repr : pyval -> string.
Variable es_indices_create : string -> pyval -> exn + pyval.

(** [int] on a string ([None] when it raises). *)
Variable py_int : string -> option Z.

(** The client library around a run, each call with the exception it
    raises, if any: the constructor [AsyncElasticsearch(address)], the
    [k]-th call of [transport.add_connection] with its host and port, and
    [es.close()]. *)
Variable es_new : string -> exn + unit.
Variable es_add_connection : nat -> string -> Z -> exn + unit.
Variable es_close : exn + unit.

Variable fs : gmap string (list string).

Definition loads (s : string) : exn + pyval :=
  match ujson_loads s with
  | Some v => inr v
  | None => inl JSONDecodeError
  end.

(** [str(v)]. *)
Definition py_str (v : pyval) : string :=
  match v with
  | PNone => "None"
  | PBool true => "True"
  | PBool false => "False"
  | PInt n => pretty n
  | PStr s => s
  | _ => py_repr v
  end.

Variable self : Loader.

(** [{"_index": self.index, "_id": str(obj['_id']), "_source": obj['_source']}];
    the items are evaluated left to right. *)
Definition make_action (obj : pyval) : exn + pyval :=
  match py_getitem obj "_id" with
  | inl e => inl e
  | inr id =>
      match py_getitem obj "_source" with
      | inl e => inl e
      | inr src =>
          inr (PDict (<["_index" := PStr (index self)]>
                     (<["_id" := PStr (py_str id)]>
                     (<["_source" := src]> ∅))))
      end
  end.

(** The body of [async for line in f], from the lines still unread and
    the loop variables [inserts], [actions] and [i].  A scheduled task
    is given [deepcopy(actions)], so it keeps the batch as it is at
    that point; [actions.clear()] then empties the buffer. *)
Fixpoint read_loop (lines : list string)
    (inserts : list (list pyval)) (actions : list pyval) (i : Z)
  : M (list (list pyval) * list pyval * Z) :=
  match lines with
  | [] => ret (inserts, actions, i)
  | line :: rest =>
      emit (ReadLine line) ;;;
      let i := i + 1 in
      obj <- lift (loads line) ;;
      a <- lift (make_action obj) ;;
      let actions := actions ++ [a] in
      if limit_reached (limit self) i then ret (inserts, actions, i)
      else
        r <- lift (py_mod i (chunk_size self)) ;;
        if r =? 0 then
          emit (CreateTask actions) ;;;
          emit (LogInfo (pretty i +:+ " documents loaded")) ;;;
          read_loop rest (inserts ++ [actions]) [] i
        else read_loop rest inserts actions i
  end.

Definition upload_data : M unit :=
  f <- py_open fs (os_path_join (input_dir self) "data.json") ;;
  st <- read_loop f [] [] 0 ;;
  let '(inserts, actions, _) := st in
  inserts <- (match actions with
              | [] => ret inserts
              | _ => emit (CreateTask actions) ;;; ret (inserts ++ [actions])
              end) ;;
  match inserts with
  | [] => raise ValueError
  | _ => emit (Wait inserts)
  end ;;;
  emit (LogInfo "Data upload finished!").

(** The five [settings.pop] calls. *)
Definition strip_settings (settings : pyval) : exn + pyval :=
  match py_pop settings "routing" with
  | inl e => inl e
  | inr s1 =>
  match py_pop s1 "provided_name" with
  | inl e => inl e
  | inr s2 =>
  match py_pop s2 "creation_date" with
  | inl e => inl e
  | inr s3 =>
  match py_pop s3 "uuid" with
  | inl e => inl e
  | inr s4 => py_pop s4 "version"
  end end end end.

Definition create_index_with_meta : M unit :=
  sf <- py_open fs (os_path_join (input_dir self) "settings.json") ;;
  mf <- py_open fs (os_path_join (input_dir self) "mappings.json") ;;
  let settings := readline sf in
  let mappings := readline mf in
  parsed <- lift (loads settings) ;;
  settings <- lift (py_getitem parsed "index") ;;
  settings <- lift (strip_settings settings) ;;
  mappings <- lift (loads mappings) ;;
  let body := PDict (<["settings" := settings]> (<["mappings" := mappings]> ∅)) in
  emit (IndicesCreate (index self) body) ;;;
  res <- lift (es_indices_create (index self) body) ;;
  ack <- lift (py_get res "acknowledged") ;;
  emit (LogInfo (if py_truthy ack then "Index created sucessfully!"
                 else "Index creation failed!")).

Definition start : M unit :=
  if String.eqb (mode self) "default"
  then create_index_with_meta ;;; upload_data
  else upload_data.

(** The loop of [__aenter__]: [n] more calls of [add_connection], the
    next being the [k]-th; it stops at the first call that raises. *)
Fixpoint add_connections (host : string) (port : Z) (n k : nat)
  : list client_event * (exn + unit) :=
  match n with
  | O => ([], inr tt)
  | S n' =>
      match es_add_connection k host port with
      | inl e => ([], inl e)
      | inr _ =>
          let '(t, r) := add_connections host port n' (S k) in
          (AddConnection host port :: t, r)
      end
  end.

(** [__aenter__]: the address must split at [:] into exactly a host and
    a port, and the port must be an integer; then the client is built on
    the whole address, [connection_pool_size - 1] connections to that
    host and port are added, and a handler is added to the logger.  The
    events are those that happened before a raise, if any. *)
Definition __aenter__ : list client_event * (exn + unit) :=
  match py_split ":" (elastic_address self) with
  | [es_host; es_port] =>
      match py_int es_port with
      | None => ([], inl ValueError)
      | Some es_port =>
          match es_new (elastic_address self) with
          | inl e => ([], inl e)
          | inr _ =>
              match add_connections es_host es_port
                      (Z.to_nat (connection_pool_size self - 1)) 0 with
              | (t, inl e) => (NewClient (elastic_address self) :: t, inl e)
              | (t, inr _) =>
                  (NewClient (elastic_address self) :: t ++ [AddHandler], inr tt)
              end
          end
      end
  | _ => ([], inl ValueError)
  end.

(** [__aexit__]: the client is closed, then every handler of the logger,
    [handlers] of them; when [es.close()] raises, nothing more is
    done. *)
Definition __aexit__ (handlers : nat) : list client_event * (exn + unit) :=
  match es_close with
  | inl e => ([], inl e)
  | inr _ => (CloseClient :: repeat CloseHandler handlers, inr tt)
  end.

(** [main]: [async with Loader(...) as loader: await loader.start()].
    When [__aenter__] raises, neither [start] nor [__aexit__] runs.
    Otherwise [__aexit__] runs after [start], also when [start] raises;
    it returns nothing, so the outcome of [start] is the outcome, unless
    [__aexit__] itself raises.  [handlers] is the number of handlers the
    logger had before. *)
Definition main (handlers : nat) : list client_event * (exn + unit) :=
  match __aenter__ with
  | (entered, inl e) => (entered, inl e)
  | (entered, inr _) =>
      let '(leaving, r) := __aexit__ (S handlers) in
      (entered ++ map Run (trace start) ++ leaving,
       match r with
       | inl e => inl e
       | inr _ => outcome start
       end)
  end.

(** ** Derived notions used in the statements *)

(** What one line of [data.json] contributes: the exception raised while
    parsing it and building its action, or the action. *)
Definition action_of (line : string) : exn + pyval :=
  match loads line with
  | inl e => inl e
  | inr obj => make_action obj
  end.

(** [acts] are the actions of [lines], line by line. *)
Definition records (lines : list string) (acts : list pyval) : Prop :=
  Forall2 (fun l a => action_of l = inr a) lines acts.

(** The limit is not reached at any count in [(i, i + n]]. *)
Definition below_limit (i : Z) (n : nat) : Prop :=
  forall j, i < j <= i + Z.of_nat n -> limit_reached (limit self) j = false.

(** The statements of [upload_data] that follow the read loop. *)
Definition after_loop (st : list (list pyval) * list pyval * Z) : M unit :=
  let '(inserts, actions, _) := st in
  inserts <- (match actions with
              | [] => ret inserts
              | _ => emit (CreateTask actions) ;;; ret (inserts ++ [actions])
              end) ;;
  match inserts with
  | [] => raise ValueError
  | _ => emit (Wait inserts)
  end ;;;
  emit (LogInfo "Data upload finished!").

(** How many lines a run takes from a stream of [n] lines: all of them
    when no limit applies, else at most [max 1 limit] (the limit is tested
    after a line has been taken). *)
Definition read_count (n : nat) : nat :=
  match limit self with
  | None => n
  | Some l => if l =? 0 then n else Nat.min n (Z.to_nat (Z.max 1 l))
  end.

(** Position [n] of the concatenation of [bs] is offset [q] of batch [p]. *)
Definition placed_at (bs : list (list pyval)) (n p q : nat) : Prop :=
  exists b, bs !! p = Some b /\ (q < length b)%nat
            /\ n = (length (concat (take p bs)) + q)%nat.

Definition data_path : string := os_path_join (input_dir self) "data.json".
Definition settings_path : string := os_path_join (input_dir self) "settings.json".
Definition mappings_path : string := os_path_join (input_dir self) "mappings.json".


(** ** The monad *)

Lemma bind_ret_l {A B} (a : A) (f : A -> M B) : bind (ret a) f = f a.
Proof. unfold bind, ret. destruct (f a) as [t r]. reflexivity. Qed.

Lemma bind_lift_inr {A B} (a : A) (f : A -> M B) : bind (lift (inr a)) f = f a.
Proof. apply bind_ret_l. Qed.

Lemma bind_lift_inl {A B} (e : exn) (f : A -> M B) : bind (lift (inl e)) f = ([], inl e).
Proof. reflexivity. Qed.

Lemma bind_emit {B} (ev : event) (f : unit -> M B) :
  bind (emit ev) f = (ev :: trace (f tt), outcome (f tt)).
Proof. unfold bind, emit, trace, outcome. destruct (f tt) as [t r]. reflexivity. Qed.

Lemma bind_pair {A B} (t : list event) (a : A) (f : A -> M B) :
  bind (t, inr a) f = (t ++ trace (f a), outcome (f a)).
Proof. unfold bind, trace, outcome. destruct (f a) as [t' r]. reflexivity. Qed.

Lemma M_eta {A} (m : M A) : m = (trace m, outcome m).
Proof. destruct m; reflexivity. Qed.

(** ** One iteration of the read loop *)

Lemma read_loop_nil ins act i : read_loop [] ins act i = ([], inr (ins, act, i)).
Proof. reflexivity. Qed.

Lemma read_loop_cons l rest ins act i :
  read_loop (l :: rest) ins act i =
  (emit (ReadLine l) ;;;
   a <- lift (action_of l) ;;
   if limit_reached (limit self) (i + 1) then ret (ins, act ++ [a], i + 1)
   else
     r <- lift (py_mod (i + 1) (chunk_size self)) ;;
     if r =? 0 then
       emit (CreateTask (act ++ [a])) ;;;
       emit (LogInfo (pretty (i + 1) +:+ " documents loaded")) ;;;
       read_loop rest (ins ++ [act ++ [a]]) [] (i + 1)
     else read_loop rest ins (act ++ [a]) (i + 1)).
Proof.
  cbn [read_loop]. f_equal. unfold action_of.
  destruct (loads l) as [e | obj]; [reflexivity |].
  rewrite bind_lift_inr. reflexivity.
Qed.

Lemma read_loop_raise l rest ins act i e :
  action_of l = inl e ->
  read_loop (l :: rest) ins act i = ([ReadLine l], inl e).
Proof. intros H. rewrite read_loop_cons, H. reflexivity. Qed.

Lemma read_loop_break l rest ins act i a :
  action_of l = inr a ->
  limit_reached (limit self) (i + 1) = true ->
  read_loop (l :: rest) ins act i = ([ReadLine l], inr (ins, act ++ [a], i + 1)).
Proof. intros H Hl. rewrite read_loop_cons, H, bind_emit, bind_lift_inr, Hl. reflexivity. Qed.

Lemma read_loop_zero l rest ins act i a :
  action_of l = inr a ->
  limit_reached (limit self) (i + 1) = false ->
  chunk_size self = 0 ->
  read_loop (l :: rest) ins act i = ([ReadLine l], inl ZeroDivisionError).
Proof.
  intros H Hl Hc. rewrite read_loop_cons, H, bind_emit, bind_lift_inr, Hl.
  unfold py_mod. rewrite Hc. reflexivity.
Qed.

Lemma read_loop_flush l rest ins act i a :
  action_of l = inr a ->
  limit_reached (limit self) (i + 1) = false ->
  chunk_size self <> 0 ->
  (i + 1) mod chunk_size self = 0 ->
  read_loop (l :: rest) ins act i =
  let m := read_loop rest (ins ++ [act ++ [a]]) [] (i + 1) in
  (ReadLine l :: CreateTask (act ++ [a])
     :: LogInfo (pretty (i + 1) +:+ " documents loaded") :: trace m,
   outcome m).
Proof.
  intros H Hl Hc Hm. rewrite read_loop_cons, H, bind_emit, bind_lift_inr, Hl.
  unfold py_mod. destruct (Z.eqb_spec (chunk_size self) 0) as [|_]; [contradiction |].
  rewrite bind_lift_inr, Hm. cbn [Z.eqb]. rewrite !bind_emit. reflexivity.
Qed.

Lemma read_loop_keep l rest ins act i a :
  action_of l = inr a ->
  limit_reached (limit self) (i + 1) = false ->
  chunk_size self <> 0 ->
  (i + 1) mod chunk_size self <> 0 ->
  read_loop (l :: rest) ins act i =
  let m := read_loop rest ins (act ++ [a]) (i + 1) in
  (ReadLine l :: trace m, outcome m).
Proof.
  intros H Hl Hc Hm. rewrite read_loop_cons, H, bind_emit, bind_lift_inr, Hl.
  unfold py_mod. destruct (Z.eqb_spec (chunk_size self) 0) as [|_]; [contradiction |].
  rewrite bind_lift_inr.
  destruct (Z.eqb_spec ((i + 1) mod chunk_size self) 0) as [|_]; [contradiction |].
  reflexivity.
Qed.


(** ** Projections of a trace *)

Lemma submitted_app t1 t2 : submitted (t1 ++ t2) = submitted t1 ++ submitted t2.
Proof. induction t1 as [|[] t1 IH]; cbn; rewrite ?IH; reflexivity. Qed.

Lemma awaited_app t1 t2 : awaited (t1 ++ t2) = awaited t1 ++ awaited t2.
Proof. induction t1 as [|[] t1 IH]; cbn; rewrite ?IH, ?app_assoc; reflexivity. Qed.

Lemma lines_read_app t1 t2 : lines_read (t1 ++ t2) = lines_read t1 ++ lines_read t2.
Proof. induction t1 as [|[] t1 IH]; cbn; rewrite ?IH; reflexivity. Qed.

Lemma logged_app t1 t2 : logged (t1 ++ t2) = logged t1 ++ logged t2.
Proof. induction t1 as [|[] t1 IH]; cbn; rewrite ?IH; reflexivity. Qed.

(** ** Arithmetic of the chunk counter *)

Lemma chunk_full c i :
  0 < c -> (i + 1) mod c = 0 -> i mod c + 1 = c.
Proof.
  intros Hc Hm. rewrite <- Z.add_mod_idemp_l in Hm by lia.
  pose proof (Z.mod_pos_bound i c Hc) as Hr.
  destruct (Z.eq_dec (i mod c + 1) c) as [|Hne]; [assumption |].
  rewrite (Z.mod_small (i mod c + 1)) in Hm by lia. lia.
Qed.

Lemma chunk_next c i :
  0 < c -> (i + 1) mod c <> 0 -> i mod c + 1 = (i + 1) mod c.
Proof.
  intros Hc Hm. rewrite <- (Z.add_mod_idemp_l i) in Hm |- * by lia.
  pose proof (Z.mod_pos_bound i c Hc) as Hr.
  destruct (Z.eq_dec (i mod c + 1) c) as [He|Hne].
  - rewrite He, Z.mod_same in Hm by lia. contradiction.
  - rewrite (Z.mod_small (i mod c + 1)) by lia. reflexivity.
Qed.

(** ** The read loop over a prefix that parses and stays below the limit *)

Lemma below_limit_head i n : below_limit i (S n) -> limit_reached (limit self) (i + 1) = false.
Proof. intros H. apply H. lia. Qed.

Lemma below_limit_tail i n : below_limit i (S n) -> below_limit (i + 1) n.
Proof. intros H j Hj. apply H. lia. Qed.

Lemma read_loop_prefix pre acts :
  records pre acts ->
  chunk_size self <> 0 ->
  forall ins act i,
  below_limit i (length pre) ->
  exists t act',
    (forall rest,
       read_loop (pre ++ rest) ins act i =
       let m := read_loop rest (ins ++ submitted t) act' (i + Z.of_nat (length pre)) in
       (t ++ trace m, outcome m))
    /\ lines_read t = pre
    /\ awaited t = []
    /\ Forall (fun b => b <> []) (submitted t)
    /\ concat (submitted t) ++ act' = act ++ acts
    /\ (0 < chunk_size self -> 0 <= i ->
        Z.of_nat (length act) = i mod chunk_size self ->
        Forall (fun b => Z.of_nat (length b) = chunk_size self) (submitted t)
        /\ Z.of_nat (length act') = (i + Z.of_nat (length pre)) mod chunk_size self).
Proof.
  intros Hrec Hc. induction Hrec as [|l a pre acts Hl Hrec IH]; intros ins act i Hlim.
  - exists [], act. repeat split.
    + intros rest. cbn [app length submitted]. rewrite app_nil_r, Z.add_0_r.
      apply M_eta.
    + constructor.
    + now rewrite app_nil_r.
    + constructor.
    + cbn [length]. now rewrite Z.add_0_r.
  - pose proof (below_limit_head _ _ Hlim) as Hhd.
    pose proof (below_limit_tail _ _ Hlim) as Htl.
    destruct (Z.eq_dec ((i + 1) mod chunk_size self) 0) as [Hm | Hm].
    + destruct (IH (ins ++ [act ++ [a]]) [] (i + 1) Htl)
        as (t & act' & Hrun & Hrd & Haw & Hne & Hcat & Hsz).
      exists (ReadLine l :: CreateTask (act ++ [a])
                :: LogInfo (pretty (i + 1) +:+ " documents loaded") :: t), act'.
      repeat split.
      * intros rest. cbn [app]. rewrite (read_loop_flush _ _ _ _ _ _ Hl Hhd Hc Hm).
        cbn zeta. rewrite Hrun. cbn [submitted trace outcome fst snd length app].
        replace (i + 1 + Z.of_nat (length pre)) with (i + Z.of_nat (S (length pre))) by lia.
        rewrite <- app_assoc. reflexivity.
      * cbn. now rewrite Hrd.
      * exact Haw.
      * cbn [submitted]. constructor; [| exact Hne].
        intros E. symmetry in E. now apply app_cons_not_nil in E.
      * cbn [submitted concat]. rewrite <- !app_assoc, Hcat. reflexivity.
      * cbn [submitted]. constructor; [| apply Hsz; try lia].
        -- rewrite length_app. cbn [length]. pose proof (chunk_full _ _ H Hm). lia.
        -- cbn [length]. now rewrite Hm.
      * replace (i + Z.of_nat (length (l :: pre))) with (i + 1 + Z.of_nat (length pre))
          by (cbn [length]; lia).
        apply Hsz; try lia. cbn [length]. now rewrite Hm.
    + destruct (IH ins (act ++ [a]) (i + 1) Htl)
        as (t & act' & Hrun & Hrd & Haw & Hne & Hcat & Hsz).
      exists (ReadLine l :: t), act'.
      repeat split.
      * intros rest. cbn [app]. rewrite (read_loop_keep _ _ _ _ _ _ Hl Hhd Hc Hm).
        cbn zeta. rewrite Hrun. cbn [submitted trace outcome fst snd length app].
        replace (i + 1 + Z.of_nat (length pre)) with (i + Z.of_nat (S (length pre))) by lia.
        reflexivity.
      * cbn. now rewrite Hrd.
      * exact Haw.
      * exact Hne.
      * cbn [submitted]. rewrite Hcat, <- app_assoc. reflexivity.
      * cbn [submitted]. apply Hsz; try lia.
        rewrite length_app. cbn [length]. pose proof (chunk_next _ _ H Hm). lia.
      * replace (i + Z.of_nat (length (l :: pre))) with (i + 1 + Z.of_nat (length pre))
          by (cbn [length]; lia).
        apply Hsz; try lia.
        rewrite length_app. cbn [length]. pose proof (chunk_next _ _ H Hm). lia.
Qed.


(** ** [upload_data] after the read loop *)

Lemma upload_data_open lines :
  fs !! data_path = Some lines ->
  upload_data =
  let m := (st <- read_loop lines [] [] 0 ;; after_loop st) in
  (Open data_path :: trace m, outcome m).
Proof.
  intros Hf. unfold upload_data, py_open. fold data_path.
  rewrite bind_emit, Hf. cbn [trace outcome fst snd ret].
  rewrite bind_pair. reflexivity.
Qed.

Lemma upload_data_raise lines e :
  fs !! data_path = Some lines ->
  outcome (read_loop lines [] [] 0) = inl e ->
  upload_data = (Open data_path :: trace (read_loop lines [] [] 0), inl e).
Proof.
  intros Hf Hr. rewrite (upload_data_open _ Hf).
  rewrite (M_eta (read_loop lines [] [] 0)), Hr. reflexivity.
Qed.

Lemma upload_data_flush lines ins a act i :
  fs !! data_path = Some lines ->
  outcome (read_loop lines [] [] 0) = inr (ins, a :: act, i) ->
  upload_data =
  (Open data_path :: trace (read_loop lines [] [] 0)
     ++ [CreateTask (a :: act); Wait (ins ++ [a :: act]);
         LogInfo "Data upload finished!"], inr tt).
Proof.
  intros Hf Hr. rewrite (upload_data_open _ Hf).
  rewrite (M_eta (read_loop lines [] [] 0)), Hr, bind_pair.
  unfold after_loop. cbn [bind emit ret app].
  destruct (ins ++ [a :: act]) as [|b bs] eqn:E.
  - symmetry in E. now apply app_cons_not_nil in E.
  - reflexivity.
Qed.

Lemma upload_data_wait lines b ins i :
  fs !! data_path = Some lines ->
  outcome (read_loop lines [] [] 0) = inr (b :: ins, [], i) ->
  upload_data =
  (Open data_path :: trace (read_loop lines [] [] 0)
     ++ [Wait (b :: ins); LogInfo "Data upload finished!"], inr tt).
Proof.
  intros Hf Hr. rewrite (upload_data_open _ Hf).
  rewrite (M_eta (read_loop lines [] [] 0)), Hr, bind_pair. reflexivity.
Qed.

Lemma upload_data_empty lines i :
  fs !! data_path = Some lines ->
  outcome (read_loop lines [] [] 0) = inr ([], [], i) ->
  upload_data = (Open data_path :: trace (read_loop lines [] [] 0), inl ValueError).
Proof.
  intros Hf Hr. rewrite (upload_data_open _ Hf).
  rewrite (M_eta (read_loop lines [] [] 0)), Hr, bind_pair. cbn.
  rewrite app_nil_r. reflexivity.
Qed.


Lemma after_loop_submitted ins act i :
  submitted (trace (after_loop (ins, act, i)))
  = match act with [] => [] | _ => [act] end.
Proof.
  unfold after_loop. destruct act as [|a act].
  - rewrite bind_ret_l. destruct ins; reflexivity.
  - cbn [bind emit ret app].
    destruct (ins ++ [a :: act]); reflexivity.
Qed.

(** ** A run that reads [pre ++ [x]] and then stops *)

Lemma upload_data_run pre x rest acts a :
  fs !! data_path = Some (pre ++ x :: rest) ->
  records pre acts ->
  action_of x = inr a ->
  chunk_size self <> 0 ->
  below_limit 0 (length pre) ->
  rest = [] \/ limit_reached (limit self) (Z.of_nat (length pre) + 1) = true ->
  exists t bs b0,
    upload_data = (t, inr tt)
    /\ lines_read t = pre ++ [x]
    /\ submitted t = bs ++ [b0 ++ [a]]
    /\ awaited t = bs ++ [b0 ++ [a]]
    /\ concat bs ++ b0 = acts
    /\ Forall (fun b => b <> []) bs
    /\ last (logged t) = Some "Data upload finished!"
    /\ (0 < chunk_size self ->
        Forall (fun b => Z.of_nat (length b) = chunk_size self) bs
        /\ Z.of_nat (length b0) = Z.of_nat (length pre) mod chunk_size self).
Proof.
  intros Hf Hrec Ha Hc Hlim Hstop.
  destruct (read_loop_prefix pre acts Hrec Hc [] [] 0 Hlim)
    as (t & act' & Hrun & Hrd & Haw & Hne & Hcat & Hsz).
  specialize (Hrun (x :: rest)). cbn [app] in Hrun, Hcat.
  rewrite Z.add_0_l in Hrun, Hsz.
  set (n := Z.of_nat (length pre)) in *.
  assert (Hsize : 0 < chunk_size self ->
      Forall (fun b => Z.of_nat (length b) = chunk_size self) (submitted t)
      /\ Z.of_nat (length act') = n mod chunk_size self).
  { intros Hpos. apply Hsz; [assumption | lia |]. cbn [length].
    now rewrite Z.mod_0_l. }
  clear Hsz.
  destruct (limit_reached (limit self) (n + 1)) eqn:Hl.
  - (* the limit is reached at x: break, then the buffer is flushed *)
    rewrite (read_loop_break _ _ _ _ _ _ Ha Hl) in Hrun.
    cbn [trace outcome fst snd] in Hrun.
    destruct (act' ++ [a]) as [|a0 act0] eqn:E;
      [symmetry in E; now apply app_cons_not_nil in E |].
    exists (Open data_path :: (t ++ [ReadLine x])
              ++ [CreateTask (a0 :: act0); Wait (submitted t ++ [a0 :: act0]);
                  LogInfo "Data upload finished!"]), (submitted t), act'.
    rewrite <- E.
    split; [| split; [| split; [| split; [| split; [| split; [| split]]]]]].
    + rewrite (upload_data_flush _ (submitted t) a0 act0 (n + 1) Hf);
        rewrite Hrun; [rewrite E |]; reflexivity.
    + cbn [lines_read]. rewrite !lines_read_app, Hrd. cbn. now rewrite app_nil_r.
    + cbn [submitted]. rewrite !submitted_app. cbn. now rewrite app_nil_r.
    + cbn [awaited]. rewrite !awaited_app, Haw. cbn. now rewrite app_nil_r.
    + exact Hcat.
    + exact Hne.
    + cbn [logged]. rewrite !logged_app, !last_app. reflexivity.
    + exact Hsize.
  - destruct Hstop as [-> | Hstop]; [| congruence].
    destruct (Z.eq_dec ((n + 1) mod chunk_size self) 0) as [Hm | Hm].
    + (* the last line fills a chunk: scheduled in the loop *)
      rewrite (read_loop_flush _ _ _ _ _ _ Ha Hl Hc Hm) in Hrun.
      cbn [read_loop ret trace outcome fst snd] in Hrun.
      destruct (submitted t ++ [act' ++ [a]]) as [|b bs] eqn:E;
        [symmetry in E; now apply app_cons_not_nil in E |].
      exists (Open data_path
                :: (t ++ [ReadLine x; CreateTask (act' ++ [a]);
                          LogInfo (pretty (n + 1) +:+ " documents loaded")])
                ++ [Wait (b :: bs); LogInfo "Data upload finished!"]),
             (submitted t), act'.
      split; [| split; [| split; [| split; [| split; [| split; [| split]]]]]].
      * rewrite (upload_data_wait _ b bs (n + 1) Hf); rewrite Hrun; reflexivity.
      * cbn [lines_read]. rewrite !lines_read_app, Hrd. cbn. now rewrite app_nil_r.
      * cbn [submitted]. rewrite !submitted_app. cbn. now rewrite app_nil_r.
      * cbn [awaited]. rewrite !awaited_app, Haw. cbn. now rewrite app_nil_r, E.
      * exact Hcat.
      * exact Hne.
      * cbn [logged]. rewrite !logged_app, !last_app. reflexivity.
      * exact Hsize.
    + (* the last line leaves a partial chunk: flushed after the loop *)
      rewrite (read_loop_keep _ _ _ _ _ _ Ha Hl Hc Hm) in Hrun.
      cbn [read_loop ret trace outcome fst snd] in Hrun.
      destruct (act' ++ [a]) as [|a0 act0] eqn:E;
        [symmetry in E; now apply app_cons_not_nil in E |].
      exists (Open data_path :: (t ++ [ReadLine x])
                ++ [CreateTask (a0 :: act0); Wait (submitted t ++ [a0 :: act0]);
                    LogInfo "Data upload finished!"]), (submitted t), act'.
      rewrite <- E.
      split; [| split; [| split; [| split; [| split; [| split; [| split]]]]]].
      * rewrite (upload_data_flush _ (submitted t) a0 act0 (n + 1) Hf);
          rewrite Hrun; [rewrite E |]; reflexivity.
      * cbn [lines_read]. rewrite !lines_read_app, Hrd. cbn. now rewrite app_nil_r.
      * cbn [submitted]. rewrite !submitted_app. cbn. now rewrite app_nil_r.
      * cbn [awaited]. rewrite !awaited_app, Haw. cbn. now rewrite app_nil_r.
      * exact Hcat.
      * exact Hne.
      * cbn [logged]. rewrite !logged_app, !last_app. reflexivity.
      * exact Hsize.
Qed.


(** ** A run that fails on a line *)

Lemma upload_data_abort pre bad post acts e :
  fs !! data_path = Some (pre ++ bad :: post) ->
  records pre acts ->
  action_of bad = inl e ->
  chunk_size self <> 0 ->
  below_limit 0 (length pre) ->
  exists t dropped,
    upload_data = (t, inl e)
    /\ lines_read t = pre ++ [bad]
    /\ last t = Some (ReadLine bad)
    /\ awaited t = []
    /\ concat (submitted t) ++ dropped = acts
    /\ (0 < chunk_size self ->
        Forall (fun b => Z.of_nat (length b) = chunk_size self) (submitted t)
        /\ Z.of_nat (length dropped) = Z.of_nat (length pre) mod chunk_size self).
Proof.
  intros Hf Hrec Hbad Hc Hlim.
  destruct (read_loop_prefix pre acts Hrec Hc [] [] 0 Hlim)
    as (t & act' & Hrun & Hrd & Haw & Hne & Hcat & Hsz).
  specialize (Hrun (bad :: post)). cbn [app] in Hrun, Hcat.
  rewrite (read_loop_raise _ _ _ _ _ _ Hbad) in Hrun.
  cbn [trace outcome fst snd] in Hrun.
  exists (Open data_path :: t ++ [ReadLine bad]), act'.
  split; [| split; [| split; [| split; [| split]]]].
  - rewrite (upload_data_raise _ e Hf); rewrite Hrun; reflexivity.
  - cbn [lines_read]. rewrite lines_read_app, Hrd. reflexivity.
  - rewrite app_comm_cons. apply last_snoc.
  - cbn [awaited]. rewrite awaited_app, Haw. reflexivity.
  - cbn [submitted]. rewrite submitted_app. cbn. now rewrite app_nil_r.
  - intros Hpos. cbn [submitted]. rewrite submitted_app. cbn [submitted].
    rewrite app_nil_r. rewrite Z.add_0_l in Hsz.
    apply Hsz; [assumption | lia |]. cbn [length]. now rewrite Z.mod_0_l.
Qed.

(** ** How far a run reads *)

Lemma read_count_spec n :
  (1 <= n)%nat ->
  exists k, read_count n = S k
    /\ (S k <= n)%nat
    /\ below_limit 0 k
    /\ (S k = n \/ limit_reached (limit self) (Z.of_nat k + 1) = true).
Proof.
  intros Hn. unfold read_count, below_limit, limit_reached.
  destruct (limit self) as [l|].
  - destruct (Z.eqb_spec l 0) as [-> | Hl].
    + exists (Nat.pred n). repeat split; lia.
    + exists (Nat.pred (Nat.min n (Z.to_nat (Z.max 1 l)))).
      split; [lia |]. split; [lia |]. split.
      * intros j Hj. cbn [negb andb]. apply Z.leb_gt. lia.
      * destruct (le_lt_dec n (Z.to_nat (Z.max 1 l))) as [Hle | Hgt].
        -- left. lia.
        -- right. cbn [negb andb]. apply Z.leb_le. lia.
  - exists (Nat.pred n). repeat split; lia.
Qed.

Lemma upload_data_reads lines acts :
  fs !! data_path = Some lines ->
  chunk_size self <> 0 ->
  lines <> [] ->
  records (take (read_count (length lines)) lines) acts ->
  exists t bs b,
    upload_data = (t, inr tt)
    /\ lines_read t = take (read_count (length lines)) lines
    /\ submitted t = bs ++ [b]
    /\ awaited t = bs ++ [b]
    /\ concat (bs ++ [b]) = acts
    /\ Forall (fun b => b <> []) (bs ++ [b])
    /\ last b = last acts
    /\ last (logged t) = Some "Data upload finished!"
    /\ (0 < chunk_size self ->
        Forall (fun b => Z.of_nat (length b) = chunk_size self) bs
        /\ Z.of_nat (length b)
           = (Z.of_nat (read_count (length lines)) - 1) mod chunk_size self + 1).
Proof.
  intros Hf Hc Hne Hrec.
  assert (Hn : (1 <= length lines)%nat) by (destruct lines; [contradiction | cbn; lia]).
  destruct (read_count_spec _ Hn) as (k & Hk & Hkn & Hlim & Hstop).
  rewrite Hk in *.
  destruct (lookup_lt_is_Some_2 lines k ltac:(lia)) as [x Hx].
  rewrite (take_S_r _ _ _ Hx) in Hrec |- *.
  apply Forall2_app_inv_l in Hrec as (acts1 & acts2 & Hrec1 & Hrec2 & ->).
  apply Forall2_cons_inv_l in Hrec2 as (a & acts3 & Ha & Hnil & ->).
  apply Forall2_nil_inv_l in Hnil as ->.
  assert (Hlen : length (take k lines) = k) by (rewrite length_take; lia).
  rewrite <- (take_drop_middle _ _ _ Hx) in Hf.
  destruct (upload_data_run (take k lines) x (drop (S k) lines) acts1 a Hf Hrec1 Ha Hc)
    as (t & bs & b0 & Hrun & Hrd & Hsub & Haw & Hcat & Hnes & Hlog & Hsz).
  - now rewrite Hlen.
  - rewrite Hlen. destruct Hstop as [Hall | Hhit]; [left | now right].
    apply drop_ge. lia.
  - exists t, bs, (b0 ++ [a]).
    split; [exact Hrun |]. split; [exact Hrd |]. split; [exact Hsub |].
    split; [exact Haw |]. split; [| split; [| split; [| split]]].
    + rewrite concat_app. cbn [concat]. rewrite app_nil_r, app_assoc, Hcat. reflexivity.
    + apply Forall_app. split; [exact Hnes |]. constructor; [| constructor].
      intros E. symmetry in E. now apply app_cons_not_nil in E.
    + now rewrite !last_snoc.
    + exact Hlog.
    + intros Hpos. destruct (Hsz Hpos) as [Hall Hb0]. split; [exact Hall |].
      rewrite length_app. cbn [length]. rewrite Hlen in Hb0.
      replace (Z.of_nat (S k) - 1) with (Z.of_nat k) by lia. lia.
Qed.

(** ** Lengths of uniform batches *)

Lemma length_concat_uniform (c : Z) (bs : list (list pyval)) :
  Forall (fun b => Z.of_nat (length b) = c) bs ->
  Z.of_nat (length (concat bs)) = c * Z.of_nat (length bs).
Proof.
  induction 1 as [|b bs Hb _ IH]; cbn [concat length].
  - lia.
  - rewrite length_app. lia.
Qed.

Lemma upload_data_no_lines :
  fs !! data_path = Some [] ->
  upload_data = ([Open data_path], inl ValueError).
Proof. intros Hf. now rewrite (upload_data_empty [] 0 Hf). Qed.

(** ** Positions in a list of batches *)

Lemma placed_at_cons_0 b bs n q :
  placed_at (b :: bs) n 0 q <-> n = q /\ (q < length b)%nat.
Proof.
  unfold placed_at. cbn. split.
  - intros (b' & [= <-] & Hq & ->). split; [reflexivity | exact Hq].
  - intros [-> Hq]. exists b. repeat split; assumption.
Qed.

Lemma placed_at_cons_S b bs n p q :
  placed_at (b :: bs) n (S p) q
  <-> (length b <= n)%nat /\ placed_at bs (n - length b) p q.
Proof.
  unfold placed_at. cbn [lookup list_lookup take concat]. split.
  - intros (b' & Hb & Hq & ->). rewrite length_app. split; [lia |].
    exists b'. repeat split; try assumption. lia.
  - intros [Hn (b' & Hb & Hq & Hpos)]. exists b'.
    repeat split; try assumption. rewrite length_app. lia.
Qed.

Lemma placed_at_exists bs n :
  (n < length (concat bs))%nat -> exists p q, placed_at bs n p q.
Proof.
  revert n. induction bs as [|b bs IH]; intros n Hn; cbn in Hn; [lia |].
  rewrite length_app in Hn.
  destruct (le_lt_dec (length b) n) as [Hge | Hlt].
  - destruct (IH (n - length b)%nat ltac:(lia)) as (p & q & Hpq).
    exists (S p), q. apply placed_at_cons_S. split; assumption.
  - exists 0%nat, n. apply placed_at_cons_0. split; [reflexivity | exact Hlt].
Qed.

Lemma placed_at_unique bs n p q p' q' :
  placed_at bs n p q -> placed_at bs n p' q' -> p = p' /\ q = q'.
Proof.
  revert n p p'. induction bs as [|b bs IH]; intros n p p' H H'.
  - destruct H as (b' & Hb & _). destruct p; discriminate.
  - destruct p as [|p], p' as [|p'].
    + apply placed_at_cons_0 in H as [-> _]. apply placed_at_cons_0 in H' as [-> _].
      split; reflexivity.
    + apply placed_at_cons_0 in H as [-> Hq]. apply placed_at_cons_S in H' as [Hn _]. lia.
    + apply placed_at_cons_S in H as [Hn _]. apply placed_at_cons_0 in H' as [-> Hq]. lia.
    + apply placed_at_cons_S in H as [_ H]. apply placed_at_cons_S in H' as [_ H'].
      destruct (IH _ _ _ H H') as [-> ->]. split; reflexivity.
Qed.

Lemma placed_at_lookup bs n p q b :
  placed_at bs n p q -> bs !! p = Some b -> b !! q = concat bs !! n.
Proof.
  revert n p. induction bs as [|b0 bs IH]; intros n p H Hb.
  - destruct p; discriminate.
  - destruct p as [|p].
    + apply placed_at_cons_0 in H as [-> Hq]. cbn in Hb. injection Hb as ->.
      cbn [concat]. now rewrite lookup_app_l.
    + apply placed_at_cons_S in H as [Hn H]. cbn in Hb.
      cbn [concat]. rewrite lookup_app_r by exact Hn. now apply (IH _ p).
Qed.

(** In a list of batches whose concatenation matches [lines] record by
    record, each line has exactly one place. *)
Lemma records_placed lines bs :
  records lines (concat bs) ->
  forall n line, lines !! n = Some line ->
  exists p q b a,
    placed_at bs n p q /\ bs !! p = Some b /\ b !! q = Some a
    /\ action_of line = inr a
    /\ (forall p' q', placed_at bs n p' q' -> p' = p /\ q' = q).
Proof.
  intros Hrec n line Hline.
  destruct (Forall2_lookup_l _ _ _ _ _ Hrec Hline) as (a & Ha & Hact).
  assert (Hn : (n < length (concat bs))%nat) by (eapply lookup_lt_Some; exact Ha).
  destruct (placed_at_exists bs n Hn) as (p & q & Hpq).
  pose proof Hpq as (b & Hb & Hq & Hpos).
  exists p, q, b, a. split; [exact Hpq |]. split; [exact Hb |].
  split; [now rewrite (placed_at_lookup _ _ _ _ _ Hpq Hb) |].
  split; [exact Hact |].
  intros p' q' H'. destruct (placed_at_unique _ _ _ _ _ _ Hpq H') as [-> ->].
  split; reflexivity.
Qed.

(** ** Batch sizes, whatever the lines hold *)

Lemma read_loop_sizes lines :
  0 < chunk_size self ->
  limit self = None ->
  forall ins act i,
  0 <= i ->
  Z.of_nat (length act) = i mod chunk_size self ->
  Forall (fun b => Z.of_nat (length b) = chunk_size self)
    (submitted (trace (read_loop lines ins act i)))
  /\ (forall ins' act' i',
        outcome (read_loop lines ins act i) = inr (ins', act', i') ->
        Z.of_nat (length act') < chunk_size self).
Proof.
  intros Hpos Hlim. induction lines as [|l rest IH]; intros ins act i Hi Hact.
  - cbn. split; [constructor |]. intros ? ? ? [= _ <- _].
    pose proof (Z.mod_pos_bound i _ Hpos). lia.
  - destruct (action_of l) as [e | a] eqn:Ha.
    { rewrite (read_loop_raise _ _ _ _ _ _ Ha). cbn.
      split; [constructor | discriminate]. }
    assert (Hl : limit_reached (limit self) (i + 1) = false) by now rewrite Hlim.
    assert (Hc : chunk_size self <> 0) by lia.
    destruct (Z.eq_dec ((i + 1) mod chunk_size self) 0) as [Hm | Hm].
    + rewrite (read_loop_flush _ _ _ _ _ _ Ha Hl Hc Hm).
      cbn [trace outcome fst snd submitted].
      destruct (IH (ins ++ [act ++ [a]]) [] (i + 1)) as [IH1 IH2];
        [lia | cbn [length]; now rewrite Hm |].
      split; [| exact IH2]. constructor; [| exact IH1].
      rewrite length_app. cbn [length]. pose proof (chunk_full _ _ Hpos Hm). lia.
    + rewrite (read_loop_keep _ _ _ _ _ _ Ha Hl Hc Hm).
      cbn [trace outcome fst snd submitted].
      apply IH; [lia |].
      rewrite length_app. cbn [length]. pose proof (chunk_next _ _ Hpos Hm). lia.
Qed.

Lemma upload_data_sizes lines :
  fs !! data_path = Some lines ->
  limit self = None ->
  0 < chunk_size self ->
  exists full tail,
    submitted (trace upload_data) = full ++ tail
    /\ Forall (fun b => Z.of_nat (length b) = chunk_size self) full
    /\ (tail = [] \/ exists b, tail = [b] /\ 1 <= Z.of_nat (length b) < chunk_size self).
Proof.
  intros Hf Hlim Hpos. rewrite (upload_data_open _ Hf). cbn [trace fst submitted].
  destruct (read_loop_sizes lines Hpos Hlim [] [] 0) as [H1 H2];
    [lia | now rewrite Z.mod_0_l by lia |].
  destruct (read_loop lines [] [] 0) as [t [e | [[ins act] i]]].
  - exists (submitted t), []. cbn [bind trace fst] in *.
    rewrite app_nil_r. split; [reflexivity |]. split; [exact H1 | now left].
  - rewrite bind_pair. cbn [trace fst] in *. rewrite submitted_app, after_loop_submitted.
    exists (submitted t). destruct act as [|a act].
    + exists []. split; [reflexivity |]. split; [exact H1 | now left].
    + exists [a :: act]. split; [reflexivity |]. split; [exact H1 | right].
      exists (a :: act). split; [reflexivity |].
      specialize (H2 _ _ _ eq_refl). cbn [length] in *. lia.
Qed.

(** ** Batching *)

(** C1.  For a stream of records, the lines the run reads and the
    concatenation of the batches it schedules, in scheduling order,
    correspond position by position, so the read order is kept and no
    record is repeated or left out; each line read has its record at
    exactly one place (one batch, one offset) of the scheduled batches.
    The run reads the first [read_count] lines; it schedules no empty
    batch, and on a stream that is not empty it ends normally having
    waited for exactly the batches it scheduled. *)
Theorem upload_places_each_record_once lines acts :
  fs !! data_path = Some lines ->
  records lines acts ->
  chunk_size self <> 0 ->
  let t := trace upload_data in
  let k := read_count (length lines) in
  lines_read t = take k lines
  /\ concat (submitted t) = take k acts
  /\ records (lines_read t) (concat (submitted t))
  /\ (forall n line, lines_read t !! n = Some line ->
        exists p q b a,
          placed_at (submitted t) n p q
          /\ submitted t !! p = Some b /\ b !! q = Some a
          /\ action_of line = inr a
          /\ (forall p' q', placed_at (submitted t) n p' q' -> p' = p /\ q' = q))
  /\ Forall (fun b => b <> []) (submitted t)
  /\ (lines <> [] -> outcome upload_data = inr tt /\ awaited t = submitted t).
Proof.
  intros Hf Hrec Hc t k. subst t k.
  assert (H : lines_read (trace upload_data) = take (read_count (length lines)) lines
    /\ concat (submitted (trace upload_data)) = take (read_count (length lines)) acts
    /\ Forall (fun b => b <> []) (submitted (trace upload_data))
    /\ (lines <> [] -> outcome upload_data = inr tt
                       /\ awaited (trace upload_data) = submitted (trace upload_data))).
  { destruct lines as [|l lines'].
    - rewrite (upload_data_no_lines Hf). apply Forall2_nil_inv_l in Hrec as ->.
      cbn. repeat split; try constructor; rewrite ?take_nil; congruence.
    - set (lines := l :: lines') in *.
      assert (Hne : lines <> []) by discriminate.
      pose proof (Forall2_take _ _ _ (read_count (length lines)) Hrec) as Hk.
      destruct (upload_data_reads lines _ Hf Hc Hne Hk)
        as (t & bs & b & Hrun & Hrd & Hsub & Haw & Hcat & Hnes & _).
      rewrite Hrun. cbn [trace outcome fst snd].
      rewrite Hrd, Hsub, Haw, Hcat. repeat split; try assumption. }
  destruct H as (Hrd & Hcat & Hnes & Hrun).
  assert (Hpos : records (lines_read (trace upload_data))
                   (concat (submitted (trace upload_data)))).
  { rewrite Hrd, Hcat. now apply Forall2_take. }
  split; [exact Hrd |]. split; [exact Hcat |]. split; [exact Hpos |].
  split; [exact (records_placed _ _ Hpos) |]. split; [exact Hnes | exact Hrun].
Qed.

Lemma read_count_no_limit n : limit self = None -> read_count n = n.
Proof. intros H. unfold read_count. now rewrite H. Qed.

Lemma read_count_limit n L :
  limit self = Some L -> 0 < L < Z.of_nat n -> read_count n = Z.to_nat L.
Proof.
  intros H HL. unfold read_count. rewrite H.
  destruct (Z.eqb_spec L 0); lia.
Qed.

(** C2.  With no limit set and a positive chunk size, whatever the
    lines hold, every batch the run schedules but the last has exactly
    [chunk_size] records and the last has between 1 and [chunk_size];
    no batch is empty.  On a stream of records whose length is a
    multiple of [chunk_size] every batch is full, so nothing trails; the
    number of batches is the number of lines divided by [chunk_size],
    rounded up. *)
Theorem upload_batch_sizes lines :
  fs !! data_path = Some lines ->
  limit self = None ->
  0 < chunk_size self ->
  let bs := submitted (trace upload_data) in
  let n := Z.of_nat (length lines) in
  (forall front b, bs = front ++ [b] ->
     Forall (fun x => Z.of_nat (length x) = chunk_size self) front
     /\ 1 <= Z.of_nat (length b) <= chunk_size self)
  /\ Forall (fun b => b <> []) bs
  /\ (forall acts, records lines acts ->
        (n mod chunk_size self = 0 ->
         Forall (fun x => Z.of_nat (length x) = chunk_size self) bs)
        /\ Z.of_nat (length bs) = (n + chunk_size self - 1) / chunk_size self).
Proof.
  intros Hf Hlim Hpos bs n. subst bs n.
  split; [| split].
  - destruct (upload_data_sizes lines Hf Hlim Hpos) as (full & tail & -> & Hfull & Htail).
    intros front b E. destruct Htail as [-> | (b' & -> & Hb')].
    + rewrite app_nil_r in E. subst full. apply Forall_app in Hfull as [Hfront Hb].
      split; [exact Hfront |]. inversion Hb; subst. lia.
    + apply app_inj_tail in E as [<- <-]. split; [exact Hfull | lia].
  - destruct (upload_data_sizes lines Hf Hlim Hpos) as (full & tail & -> & Hfull & Htail).
    apply Forall_app. split.
    + eapply Forall_impl; [exact Hfull |]. cbv beta. intros b Hb ->. cbn in Hb. lia.
    + destruct Htail as [-> | (b' & -> & Hb')]; [constructor |].
      constructor; [| constructor]. intros ->. cbn in Hb'. lia.
  - intros acts Hrec. destruct lines as [|l lines'].
    + rewrite (upload_data_no_lines Hf). cbn [trace fst submitted length].
      split; [constructor |]. cbn. rewrite Z.div_small; lia.
    + set (lines := l :: lines') in *.
      assert (Hne : lines <> []) by discriminate.
      assert (Hn : 1 <= Z.of_nat (length lines)) by (subst lines; cbn [length]; lia).
      pose proof (Forall2_length _ _ _ Hrec) as Hlen.
      pose proof (Forall2_take _ _ _ (read_count (length lines)) Hrec) as Hk.
      destruct (upload_data_reads lines _ Hf (ltac:(lia)) Hne Hk)
        as (t & bs & b & Hrun & _ & Hsub & _ & Hcat & Hnes & _ & _ & Hsz).
      destruct (Hsz Hpos) as [Hfull Hb]. clear Hsz.
      rewrite (read_count_no_limit _ Hlim) in Hcat, Hb.
      rewrite firstn_all2 in Hcat by lia.
      rewrite Hrun. cbn [trace fst]. rewrite Hsub.
      set (n := Z.of_nat (length lines)) in *.
      set (c := chunk_size self) in *.
      pose proof (Z.mod_pos_bound (n - 1) c Hpos) as Hr.
      split.
      * intros Hm. apply Forall_app. split; [exact Hfull |].
        constructor; [| constructor].
        pose proof (chunk_full c (n - 1) Hpos) as Hcf.
        replace (n - 1 + 1) with n in Hcf by lia. specialize (Hcf Hm). lia.
      * rewrite length_app. cbn [length].
        apply (f_equal (@length pyval)) in Hcat.
        rewrite concat_app, length_app in Hcat. cbn [concat length] in Hcat.
        rewrite app_nil_r in Hcat.
        pose proof (length_concat_uniform c bs Hfull) as Hu.
        assert (Hq : Z.of_nat (length bs) = (n - 1) / c).
        { apply (Z.div_unique_pos (n - 1) c _ ((n - 1) mod c)); [exact Hr |]. lia. }
        replace (n + c - 1) with (n - 1 + 1 * c) by lia.
        rewrite Z.div_add by lia. lia.
Qed.

(** C3.  With [limit = L] for a positive [L] and a stream of more than
    [L] lines whose first [L] are records, the run reads exactly the
    first [L] lines and ends normally.  The last batch it schedules ends
    with the record of line [L]; it is scheduled, and waited for, with
    its [(L - 1) mod chunk_size + 1] records even when that is fewer than
    [chunk_size]; the lines after the first [L] are not read (they need
    not even parse). *)
Theorem upload_stops_at_limit lines acts L :
  fs !! data_path = Some lines ->
  limit self = Some L ->
  0 < L < Z.of_nat (length lines) ->
  records (take (Z.to_nat L) lines) acts ->
  chunk_size self <> 0 ->
  let t := trace upload_data in
  outcome upload_data = inr tt
  /\ lines_read t = take (Z.to_nat L) lines
  /\ Z.of_nat (length (lines_read t)) = L
  /\ concat (submitted t) = acts
  /\ awaited t = submitted t
  /\ exists bs b,
       submitted t = bs ++ [b]
       /\ b <> []
       /\ last b = last acts
       /\ (0 < chunk_size self ->
           Forall (fun x => Z.of_nat (length x) = chunk_size self) bs
           /\ Z.of_nat (length b) = (L - 1) mod chunk_size self + 1).
Proof.
  intros Hf Hlim HL Hrec Hc t. subst t.
  assert (Hne : lines <> []) by (destruct lines; [cbn in HL; lia | discriminate]).
  pose proof (read_count_limit (length lines) L Hlim HL) as Hk.
  rewrite <- Hk in Hrec.
  destruct (upload_data_reads lines acts Hf Hc Hne Hrec)
    as (t & bs & b & Hrun & Hrd & Hsub & Haw & Hcat & Hnes & Hlast & _ & Hsz).
  rewrite Hk in Hrd, Hsz.
  rewrite Hrun. cbn [trace outcome fst snd].
  split; [reflexivity |]. split; [exact Hrd |]. split.
  { rewrite Hrd, length_take. lia. }
  split; [now rewrite Hsub |]. split; [now rewrite Hsub, Haw |].
  exists bs, b. split; [exact Hsub |]. split.
  { apply Forall_app in Hnes as [_ Hb]. now inversion Hb. }
  split; [exact Hlast |].
  intros Hpos. destruct (Hsz Hpos) as [Hfull Hb].
  split; [exact Hfull |]. rewrite Hb. now rewrite Z2Nat.id by lia.
Qed.

(** ** Errors *)

(** C4 (as the code has it).  When a line fails to parse, or lacks a
    field, after [pre] lines that are records and before any limit is
    reached, the run ends with that line's exception and the failing read
    is its last event: the wait for the scheduled tasks is never reached,
    so none of the batches scheduled so far is waited for.  Those batches
    are the full chunks of [pre]; the records read after the last full
    chunk are dropped with the buffer. *)
Theorem upload_parse_error_skips_wait pre bad post acts e :
  fs !! data_path = Some (pre ++ bad :: post) ->
  records pre acts ->
  action_of bad = inl e ->
  chunk_size self <> 0 ->
  below_limit 0 (length pre) ->
  let t := trace upload_data in
  outcome upload_data = inl e
  /\ lines_read t = pre ++ [bad]
  /\ last t = Some (ReadLine bad)
  /\ awaited t = []
  /\ exists dropped,
       concat (submitted t) ++ dropped = acts
       /\ (0 < chunk_size self ->
           Forall (fun b => Z.of_nat (length b) = chunk_size self) (submitted t)
           /\ Z.of_nat (length dropped)
              = Z.of_nat (length pre) mod chunk_size self).
Proof.
  intros Hf Hrec Hbad Hc Hlim t. subst t.
  destruct (upload_data_abort pre bad post acts e Hf Hrec Hbad Hc Hlim)
    as (t & dropped & Hrun & Hrd & Hlast & Haw & Hcat & Hsz).
  rewrite Hrun. cbn [trace outcome fst snd].
  repeat (split; [assumption || reflexivity |]).
  exists dropped. split; assumption.
Qed.

(** C8.  On a [data.json] with no line the loop schedules nothing, the
    wait is given an empty collection and raises [ValueError]: the run
    ends with that exception right after opening the file, whatever the
    chunk size and the limit, and the completion line is never logged. *)
Theorem upload_empty_stream_raises :
  fs !! data_path = Some [] ->
  upload_data = ([Open data_path], inl ValueError)
  /\ submitted (trace upload_data) = []
  /\ awaited (trace upload_data) = []
  /\ logged (trace upload_data) = [].
Proof.
  intros Hf. rewrite (upload_data_no_lines Hf). repeat split.
Qed.

(** ** What the scheduled batches hold *)

Lemma read_loop_submitted_inv (P : pyval -> Prop) lines :
  (forall l a, l ∈ lines -> action_of l = inr a -> P a) ->
  forall ins act i,
  Forall P act ->
  Forall (Forall P) (submitted (trace (read_loop lines ins act i)))
  /\ (forall ins' act' i',
        outcome (read_loop lines ins act i) = inr (ins', act', i') ->
        Forall P act').
Proof.
  induction lines as [|l rest IH]; intros HP ins act i Hact.
  - cbn. split; [constructor |]. intros ? ? ? [= _ <- _]. exact Hact.
  - assert (HPrest : forall l' a, l' ∈ rest -> action_of l' = inr a -> P a).
    { intros l' a Hin. apply HP. now right. }
    destruct (action_of l) as [e | a] eqn:Ha.
    { rewrite (read_loop_raise _ _ _ _ _ _ Ha). cbn.
      split; [constructor | discriminate]. }
    assert (Hact' : Forall P (act ++ [a])).
    { apply Forall_app. split; [exact Hact |]. constructor; [| constructor].
      apply (HP l); [now left | exact Ha]. }
    destruct (limit_reached (limit self) (i + 1)) eqn:Hl.
    { rewrite (read_loop_break _ _ _ _ _ _ Ha Hl). cbn.
      split; [constructor |]. intros ? ? ? [= _ <- _]. exact Hact'. }
    destruct (Z.eq_dec (chunk_size self) 0) as [Hc | Hc].
    { rewrite (read_loop_zero _ _ _ _ _ _ Ha Hl Hc). cbn.
      split; [constructor | discriminate]. }
    destruct (Z.eq_dec ((i + 1) mod chunk_size self) 0) as [Hm | Hm].
    + rewrite (read_loop_flush _ _ _ _ _ _ Ha Hl Hc Hm).
      cbn [trace outcome fst snd submitted].
      destruct (IH HPrest (ins ++ [act ++ [a]]) [] (i + 1)) as [IH1 IH2];
        [constructor |].
      split; [constructor; assumption | exact IH2].
    + rewrite (read_loop_keep _ _ _ _ _ _ Ha Hl Hc Hm).
      cbn [trace outcome fst snd submitted].
      apply (IH HPrest). exact Hact'.
Qed.

Lemma upload_data_submitted_inv (P : pyval -> Prop) lines :
  fs !! data_path = Some lines ->
  (forall l a, l ∈ lines -> action_of l = inr a -> P a) ->
  Forall (Forall P) (submitted (trace upload_data)).
Proof.
  intros Hf HP. rewrite (upload_data_open _ Hf). cbn [trace fst submitted].
  destruct (read_loop_submitted_inv P lines HP [] [] 0) as [H1 H2]; [constructor |].
  destruct (read_loop lines [] [] 0) as [t [e | [[ins act] i]]].
  - exact H1.
  - rewrite bind_pair. cbn [trace fst] in *. rewrite submitted_app.
    apply Forall_app. split; [exact H1 |].
    rewrite after_loop_submitted. destruct act as [|a act]; [constructor |].
    constructor; [| constructor]. exact (H2 _ _ _ eq_refl).
Qed.

Lemma make_action_id obj id src :
  py_getitem obj "_id" = inr id ->
  py_getitem obj "_source" = inr src ->
  exists a, make_action obj = inr a
    /\ py_getitem a "_id" = inr (PStr (py_str id))
    /\ py_getitem a "_source" = inr src
    /\ py_getitem a "_index" = inr (PStr (index self)).
Proof.
  intros Hid Hsrc. unfold make_action. rewrite Hid, Hsrc.
  eexists. split; [reflexivity |]. cbn [py_getitem].
  repeat split.
Qed.

(** *** Integers print in decimal *)








(** ** Restoring the index metadata *)

Lemma py_pop_inr v key v' :
  py_pop v key = inr v' ->
  exists d, v = PDict d /\ is_Some (d !! key) /\ v' = PDict (delete key d).
Proof.
  destruct v as [| | | | | |d]; cbn; try discriminate.
  destruct (d !! key) as [x|] eqn:E; [| discriminate].
  intros [= <-]. exists d. repeat split. now exists x.
Qed.

(** C5 (as the code has it).  The five [pop] calls succeed exactly on a
    dictionary that has all five keys, and give it without them; every
    other key is kept.  Applied again to its own result the step does
    not succeed: [routing] is gone, and [pop] raises [KeyError]. *)
Theorem strip_settings_twice_raises s s' :
  strip_settings s = inr s' ->
  (exists d d',
     s = PDict d /\ s' = PDict d'
     /\ d' = delete "version" (delete "uuid" (delete "creation_date"
               (delete "provided_name" (delete "routing" d))))
     /\ is_Some (d !! "routing") /\ is_Some (d !! "provided_name")
     /\ is_Some (d !! "creation_date") /\ is_Some (d !! "uuid")
     /\ is_Some (d !! "version")
     /\ (forall k, k <> "routing" -> k <> "provided_name" ->
           k <> "creation_date" -> k <> "uuid" -> k <> "version" ->
           d' !! k = d !! k))
  /\ strip_settings s' = inl (KeyError "routing").
Proof.
  unfold strip_settings at 1. intros H.
  destruct (py_pop s "routing") as [|s1] eqn:E1; [discriminate |].
  destruct (py_pop s1 "provided_name") as [|s2] eqn:E2; [discriminate |].
  destruct (py_pop s2 "creation_date") as [|s3] eqn:E3; [discriminate |].
  destruct (py_pop s3 "uuid") as [|s4] eqn:E4; [discriminate |].
  apply py_pop_inr in E1 as (d & -> & H1 & ->).
  apply py_pop_inr in E2 as (d2 & [= <-] & H2 & ->).
  apply py_pop_inr in E3 as (d3 & [= <-] & H3 & ->).
  apply py_pop_inr in E4 as (d4 & [= <-] & H4 & ->).
  apply py_pop_inr in H as (d5 & [= <-] & H5 & ->).
  repeat rewrite lookup_delete_ne in H2 by done.
  repeat rewrite lookup_delete_ne in H3 by done.
  repeat rewrite lookup_delete_ne in H4 by done.
  repeat rewrite lookup_delete_ne in H5 by done.
  split.
  - exists d, (delete "version" (delete "uuid" (delete "creation_date"
                (delete "provided_name" (delete "routing" d))))).
    do 3 (split; [reflexivity |]). do 5 (split; [assumption |]).
    intros k ? ? ? ? ?. now rewrite !lookup_delete_ne by done.
  - unfold strip_settings. cbn [py_pop].
    rewrite !lookup_delete_ne by done. now rewrite lookup_delete_eq.
Qed.

(** C6 (as the code has it).  The create-index call is not guarded.
    With well-formed metadata files, when the call returns a result
    whose [acknowledged] entry is absent or false, the metadata step
    logs the failure line and returns, and in [default] mode the whole of
    [upload_data] follows.  When the client reports the rejection by
    raising, the step ends with that exception right after the call,
    logging nothing, and in [default] mode so does the run: [data.json]
    is never opened. *)
Theorem create_index_rejection_outcomes
    sf mf parsed settings stripped mappings :
  fs !! settings_path = Some sf ->
  fs !! mappings_path = Some mf ->
  loads (readline sf) = inr parsed ->
  py_getitem parsed "index" = inr settings ->
  strip_settings settings = inr stripped ->
  loads (readline mf) = inr mappings ->
  let body := PDict (<["settings" := stripped]> (<["mappings" := mappings]> ∅)) in
  let t := [Open settings_path; Open mappings_path;
            IndicesCreate (index self) body] in
  (forall res,
     es_indices_create (index self) body = inr (PDict res) ->
     py_truthy (default PNone (res !! "acknowledged")) = false ->
     create_index_with_meta = (t ++ [LogInfo "Index creation failed!"], inr tt)
     /\ (mode self = "default" ->
         start = ((t ++ [LogInfo "Index creation failed!"]) ++ trace upload_data,
                  outcome upload_data)))
  /\ (forall e,
        es_indices_create (index self) body = inl e ->
        create_index_with_meta = (t, inl e)
        /\ (mode self = "default" ->
            start = (t, inl e)
            /\ opened (trace start) = [settings_path; mappings_path]
            /\ lines_read (trace start) = []
            /\ submitted (trace start) = [])).
Proof.
  intros Hsf Hmf Hp Hi Hs Hm body t. split.
  - intros res Hres Hack.
    assert (Hmeta : create_index_with_meta
              = (t ++ [LogInfo "Index creation failed!"], inr tt)).
    { unfold create_index_with_meta, py_open. fold settings_path mappings_path.
      rewrite Hsf, Hmf. cbn [bind emit ret app].
      rewrite Hp, bind_lift_inr, Hi, bind_lift_inr, Hs, bind_lift_inr.
      rewrite Hm, bind_lift_inr. fold body.
      rewrite Hres, bind_lift_inr. cbn [py_get]. rewrite bind_lift_inr, Hack.
      reflexivity. }
    split; [exact Hmeta |].
    intros Hmode. unfold start. rewrite Hmode. cbn [String.eqb Ascii.eqb Bool.eqb].
    rewrite Hmeta. apply bind_pair.
  - intros e Hres.
    assert (Hmeta : create_index_with_meta = (t, inl e)).
    { unfold create_index_with_meta, py_open. fold settings_path mappings_path.
      rewrite Hsf, Hmf. cbn [bind emit ret app].
      rewrite Hp, bind_lift_inr, Hi, bind_lift_inr, Hs, bind_lift_inr.
      rewrite Hm, bind_lift_inr. fold body. rewrite Hres. reflexivity. }
    split; [exact Hmeta |].
    intros Hmode.
    assert (Hstart : start = (t, inl e)).
    { unfold start. rewrite Hmode. cbn [String.eqb Ascii.eqb Bool.eqb].
      now rewrite Hmeta. }
    rewrite Hstart. repeat split.
Qed.

(** ** The two modes *)

Lemma opened_app t1 t2 : opened (t1 ++ t2) = opened t1 ++ opened t2.
Proof. induction t1 as [|[] t1 IH]; cbn; rewrite ?IH; reflexivity. Qed.

Lemma create_calls_app t1 t2 :
  create_calls (t1 ++ t2) = create_calls t1 ++ create_calls t2.
Proof. induction t1 as [|[] t1 IH]; cbn; rewrite ?IH; reflexivity. Qed.

(** The read loop opens no file and calls no index creation. *)
Lemma read_loop_quiet lines ins act i :
  opened (trace (read_loop lines ins act i)) = []
  /\ create_calls (trace (read_loop lines ins act i)) = [].
Proof.
  revert ins act i. induction lines as [|l rest IH]; intros ins act i.
  - split; reflexivity.
  - destruct (action_of l) as [e | a] eqn:Ha.
    { rewrite (read_loop_raise _ _ _ _ _ _ Ha). split; reflexivity. }
    destruct (limit_reached (limit self) (i + 1)) eqn:Hl.
    { rewrite (read_loop_break _ _ _ _ _ _ Ha Hl). split; reflexivity. }
    destruct (Z.eq_dec (chunk_size self) 0) as [Hc | Hc].
    { rewrite (read_loop_zero _ _ _ _ _ _ Ha Hl Hc). split; reflexivity. }
    destruct (Z.eq_dec ((i + 1) mod chunk_size self) 0) as [Hm | Hm].
    + rewrite (read_loop_flush _ _ _ _ _ _ Ha Hl Hc Hm).
      cbn [trace fst opened create_calls]. apply IH.
    + rewrite (read_loop_keep _ _ _ _ _ _ Ha Hl Hc Hm).
      cbn [trace fst opened create_calls]. apply IH.
Qed.

Lemma after_loop_quiet st :
  opened (trace (after_loop st)) = []
  /\ create_calls (trace (after_loop st)) = [].
Proof.
  destruct st as [[ins act] i]. unfold after_loop. destruct act as [|a act].
  - rewrite bind_ret_l. destruct ins; split; reflexivity.
  - cbn [bind emit ret app]. destruct (ins ++ [a :: act]); split; reflexivity.
Qed.

(** [upload_data] opens [data.json] and nothing else, and never calls the
    index creation. *)
Lemma upload_data_quiet :
  opened (trace upload_data) = [data_path]
  /\ create_calls (trace upload_data) = [].
Proof.
  destruct (fs !! data_path) as [lines|] eqn:Hf.
  - rewrite (upload_data_open _ Hf). cbn [trace fst opened create_calls].
    destruct (read_loop_quiet lines [] [] 0) as [Ho Hc].
    destruct (read_loop lines [] [] 0) as [t [e | st]].
    + cbn [bind trace fst] in *. now rewrite Ho, Hc.
    + rewrite bind_pair. cbn [trace fst] in *.
      destruct (after_loop_quiet st) as [Ho' Hc'].
      now rewrite opened_app, create_calls_app, Ho, Hc, Ho', Hc'.
  - unfold upload_data, py_open. fold data_path. rewrite Hf. split; reflexivity.
Qed.

Lemma bind_trace_prefix {A B} (m : M A) (f : A -> M B) :
  exists t', trace (bind m f) = trace m ++ t'.
Proof.
  destruct m as [t [e | a]].
  - exists []. cbn. now rewrite app_nil_r.
  - rewrite bind_pair. now eexists.
Qed.

Lemma create_index_opens_first :
  exists t', trace create_index_with_meta = Open settings_path :: t'.
Proof.
  unfold create_index_with_meta. fold settings_path.
  match goal with
  | |- context [bind ?m ?f] => destruct (bind_trace_prefix m f) as [t' ->]
  end.
  unfold py_open. rewrite bind_emit. now eexists.
Qed.

(** C7 (as the code has it).  In [data] mode, as in any mode but
    [default], a run is [upload_data] alone: it opens only [data.json]
    and makes no create-index call.  In [default] mode the metadata step
    runs first; when it returns, the whole of [upload_data] follows it,
    and when it raises, the run ends there with its exception and
    [upload_data] is not started. *)
Theorem start_mode_dispatch :
  (mode self <> "default" ->
     start = upload_data
     /\ opened (trace start) = [data_path]
     /\ create_calls (trace start) = [])
  /\ (mode self = "default" ->
      start = (create_index_with_meta ;;; upload_data)
      /\ (exists t', trace start = Open settings_path :: t')
      /\ (forall t, create_index_with_meta = (t, inr tt) ->
            start = (t ++ trace upload_data, outcome upload_data))
      /\ (forall t e, create_index_with_meta = (t, inl e) ->
            start = (t, inl e))).
Proof.
  split.
  - intros Hmode. assert (Hs : start = upload_data).
    { unfold start. destruct (String.eqb_spec (mode self) "default"); [contradiction |].
      reflexivity. }
    rewrite Hs. split; [reflexivity |]. apply upload_data_quiet.
  - intros Hmode. assert (Hs : start = (create_index_with_meta ;;; upload_data)).
    { unfold start. now rewrite Hmode. }
    rewrite Hs. split; [reflexivity |]. split; [| split].
    + destruct (bind_trace_prefix create_index_with_meta (fun _ => upload_data))
        as [t1 ->].
      destruct create_index_opens_first as [t2 ->]. now exists (t2 ++ t1).
    + intros t Ht. rewrite Ht. apply bind_pair.
    + intros t e Ht. rewrite Ht. reflexivity.
Qed.

(** ** Every run of the read loop, whatever the lines hold *)

(** Reasoning by cases on what an iteration does. *)
Lemma read_loop_cases
    (P : list string -> list (list pyval) -> list pyval -> Z ->
         M (list (list pyval) * list pyval * Z) -> Prop) :
  (forall ins act i, P [] ins act i ([], inr (ins, act, i))) ->
  (forall l rest ins act i e,
     action_of l = inl e ->
     P (l :: rest) ins act i ([ReadLine l], inl e)) ->
  (forall l rest ins act i a,
     action_of l = inr a ->
     limit_reached (limit self) (i + 1) = true ->
     P (l :: rest) ins act i ([ReadLine l], inr (ins, act ++ [a], i + 1))) ->
  (forall l rest ins act i a,
     action_of l = inr a ->
     limit_reached (limit self) (i + 1) = false ->
     chunk_size self = 0 ->
     P (l :: rest) ins act i ([ReadLine l], inl ZeroDivisionError)) ->
  (forall l rest ins act i a t r,
     action_of l = inr a ->
     limit_reached (limit self) (i + 1) = false ->
     chunk_size self <> 0 ->
     (i + 1) mod chunk_size self = 0 ->
     P rest (ins ++ [act ++ [a]]) [] (i + 1) (t, r) ->
     P (l :: rest) ins act i
       (ReadLine l :: CreateTask (act ++ [a])
          :: LogInfo (pretty (i + 1) +:+ " documents loaded") :: t, r)) ->
  (forall l rest ins act i a t r,
     action_of l = inr a ->
     limit_reached (limit self) (i + 1) = false ->
     chunk_size self <> 0 ->
     (i + 1) mod chunk_size self <> 0 ->
     P rest ins (act ++ [a]) (i + 1) (t, r) ->
     P (l :: rest) ins act i (ReadLine l :: t, r)) ->
  forall lines ins act i, P lines ins act i (read_loop lines ins act i).
Proof.
  intros Hnil Hraise Hbreak Hzero Hflush Hkeep.
  induction lines as [|l rest IH]; intros ins act i; [apply Hnil |].
  destruct (action_of l) as [e | a] eqn:Ha.
  { rewrite (read_loop_raise _ _ _ _ _ _ Ha). now apply Hraise. }
  destruct (limit_reached (limit self) (i + 1)) eqn:Hl.
  { rewrite (read_loop_break _ _ _ _ _ _ Ha Hl). now apply Hbreak. }
  destruct (Z.eq_dec (chunk_size self) 0) as [Hc | Hc].
  { rewrite (read_loop_zero _ _ _ _ _ _ Ha Hl Hc). now apply (Hzero _ _ _ _ _ a). }
  destruct (Z.eq_dec ((i + 1) mod chunk_size self) 0) as [Hm | Hm].
  - rewrite (read_loop_flush _ _ _ _ _ _ Ha Hl Hc Hm). cbn zeta.
    apply (Hflush _ _ _ _ _ a); try assumption.
    rewrite <- M_eta. apply IH.
  - rewrite (read_loop_keep _ _ _ _ _ _ Ha Hl Hc Hm). cbn zeta.
    apply (Hkeep _ _ _ _ _ a); try assumption.
    rewrite <- M_eta. apply IH.
Qed.

(** The loop waits for nothing, hands back the tasks it was given
    followed by those it created, never creates a task on an empty
    batch, and a loop that raises stops at a read. *)
Lemma read_loop_tasks lines ins act i :
  let m := read_loop lines ins act i in
  awaited (trace m) = []
  /\ Forall (fun b => b <> []) (submitted (trace m))
  /\ (forall ins' act' i', outcome m = inr (ins', act', i') ->
        ins' = ins ++ submitted (trace m))
  /\ (forall e, outcome m = inl e -> exists x, last (trace m) = Some (ReadLine x)).
Proof.
  cbv zeta. revert lines ins act i.
  apply (read_loop_cases (fun _ ins _ _ m =>
    awaited (trace m) = []
    /\ Forall (fun b => b <> []) (submitted (trace m))
    /\ (forall ins' act' i', outcome m = inr (ins', act', i') ->
          ins' = ins ++ submitted (trace m))
    /\ (forall e, outcome m = inl e -> exists x, last (trace m) = Some (ReadLine x))));
    cbn [trace outcome fst snd].
  - intros ins act i. repeat split; try constructor.
    + intros ? ? ? [= <- _ _]. now rewrite app_nil_r.
    + discriminate.
  - intros l rest ins act i e _. repeat split; try constructor.
    + discriminate.
    + intros _ _. now exists l.
  - intros l rest ins act i a _ _. repeat split; try constructor.
    + intros ? ? ? [= <- _ _]. now rewrite app_nil_r.
    + discriminate.
  - intros l rest ins act i a _ _ _. repeat split; try constructor.
    + discriminate.
    + intros _ _. now exists l.
  - intros l rest ins act i a t r _ _ _ _ (Haw & Hne & Hins & Hlast).
    cbn [awaited submitted]. split; [exact Haw |]. split; [| split].
    + constructor; [| exact Hne]. intros E. symmetry in E.
      now apply app_cons_not_nil in E.
    + intros ins' act' i' Hr. rewrite (Hins _ _ _ Hr), <- app_assoc. reflexivity.
    + intros e Hr. destruct (Hlast e Hr) as [x Hx]. exists x.
      destruct t as [|ev t]; [discriminate |]. exact Hx.
  - intros l rest ins act i a t r _ _ _ _ (Haw & Hne & Hins & Hlast).
    cbn [awaited submitted]. split; [exact Haw |]. split; [exact Hne |]. split.
    + exact Hins.
    + intros e Hr. destruct (Hlast e Hr) as [x Hx]. exists x.
      destruct t as [|ev t]; [discriminate |]. exact Hx.
Qed.

(** The lines read are the first lines given, and the records in the
    tasks created, followed by those still in the buffer, are the buffer
    given followed by the records of the first lines read. *)
Lemma read_loop_reads lines ins act i :
  let m := read_loop lines ins act i in
  (exists rest, lines = lines_read (trace m) ++ rest)
  /\ exists acts buf,
       records (take (length acts) (lines_read (trace m))) acts
       /\ concat (submitted (trace m)) ++ buf = act ++ acts
       /\ (forall ins' act' i', outcome m = inr (ins', act', i') ->
             buf = act' /\ length acts = length (lines_read (trace m))).
Proof.
  cbv zeta. revert lines ins act i.
  apply (read_loop_cases (fun lines _ act _ m =>
    (exists rest, lines = lines_read (trace m) ++ rest)
    /\ exists acts buf,
         records (take (length acts) (lines_read (trace m))) acts
         /\ concat (submitted (trace m)) ++ buf = act ++ acts
         /\ (forall ins' act' i', outcome m = inr (ins', act', i') ->
               buf = act' /\ length acts = length (lines_read (trace m)))));
    cbn [trace outcome fst snd].
  - intros ins act i. split; [now exists [] |]. exists [], act.
    split; [constructor |]. split; [now rewrite app_nil_r |].
    intros ? ? ? [= _ <- _]. split; reflexivity.
  - intros l rest ins act i e _. split; [now exists rest |]. exists [], act.
    split; [constructor |]. split; [now rewrite app_nil_r |]. discriminate.
  - intros l rest ins act i a Ha _. split; [now exists rest |].
    exists [a], (act ++ [a]).
    split; [repeat constructor; exact Ha |]. split; [reflexivity |].
    intros ? ? ? [= _ <- _]. split; reflexivity.
  - intros l rest ins act i a _ _ _. split; [now exists rest |]. exists [], act.
    split; [constructor |]. split; [now rewrite app_nil_r |]. discriminate.
  - intros l rest ins act i a t r Ha _ _ _ ([rest' Hrest] & acts & buf & Hrec & Hcat & Hout).
    cbn [lines_read submitted concat]. split.
    { exists rest'. cbn [app]. now rewrite <- Hrest. }
    exists (a :: acts), buf.
    split; [constructor; [exact Ha | exact Hrec] |]. split.
    + rewrite <- !app_assoc, Hcat. reflexivity.
    + intros ins' act' i' Hr. destruct (Hout _ _ _ Hr) as [-> Hlen].
      split; [reflexivity |]. cbn [length]. now rewrite Hlen.
  - intros l rest ins act i a t r Ha _ _ _ ([rest' Hrest] & acts & buf & Hrec & Hcat & Hout).
    cbn [lines_read submitted]. split.
    { exists rest'. cbn [app]. now rewrite <- Hrest. }
    exists (a :: acts), buf.
    split; [constructor; [exact Ha | exact Hrec] |]. split.
    + rewrite Hcat, <- app_assoc. reflexivity.
    + intros ins' act' i' Hr. destruct (Hout _ _ _ Hr) as [-> Hlen].
      split; [reflexivity |]. cbn [length]. now rewrite Hlen.
Qed.

Lemma read_loop_silent lines ins act i :
  lines_read (trace (read_loop lines ins act i)) = [] ->
  trace (read_loop lines ins act i) = [].
Proof.
  revert lines ins act i.
  apply (read_loop_cases (fun _ _ _ _ m => lines_read (trace m) = [] -> trace m = []));
    cbn [trace fst lines_read]; intros; try reflexivity; discriminate.
Qed.

Lemma upload_data_missing :
  fs !! data_path = None ->
  upload_data = ([Open data_path], inl (FileNotFoundError data_path)).
Proof.
  intros Hf. unfold upload_data, py_open. fold data_path. now rewrite Hf.
Qed.

(** X1.  A run of [upload_data] that ends normally has waited for
    exactly the tasks it created, of which there is at least one, and its
    last event is the completion line.  A run that raises has waited for
    nothing, and it stops right after opening the file or right after
    reading a line. *)
Theorem upload_waits_for_all_or_nothing :
  let t := trace upload_data in
  (outcome upload_data = inr tt ->
     awaited t = submitted t /\ submitted t <> []
     /\ last t = Some (LogInfo "Data upload finished!"))
  /\ (forall e, outcome upload_data = inl e ->
        awaited t = []
        /\ (t = [Open data_path] \/ exists x, last t = Some (ReadLine x))).
Proof.
  cbv zeta. destruct (fs !! data_path) as [lines|] eqn:Hf.
  2:{ rewrite (upload_data_missing Hf). cbn. split; [discriminate |].
      intros e _. split; [reflexivity | now left]. }
  destruct (read_loop_tasks lines [] [] 0) as (Haw & _ & Hins & Hlast).
  cbv zeta in *.
  destruct (outcome (read_loop lines [] [] 0)) as [e | [[ins act] i]] eqn:Hr.
  - rewrite (upload_data_raise _ _ Hf Hr). cbn [trace outcome fst snd awaited].
    split; [discriminate |]. intros e' _. split; [exact Haw |]. right.
    destruct (Hlast e eq_refl) as [x Hx]. exists x.
    destruct (trace (read_loop lines [] [] 0)); [discriminate | exact Hx].
  - specialize (Hins _ _ _ eq_refl). cbn [app] in Hins. subst ins.
    destruct act as [|a act].
    + destruct (submitted (trace (read_loop lines [] [] 0))) as [|b bs] eqn:Hs.
      * rewrite (upload_data_empty _ _ Hf Hr). cbn [trace outcome fst snd awaited].
        split; [discriminate |]. intros e _. split; [exact Haw |]. left.
        destruct (read_loop_reads lines [] [] 0) as (_ & acts & buf & _ & Hcat & Hout).
        cbv zeta in *. destruct (Hout _ _ _ Hr) as [-> Hlen].
        rewrite Hs in Hcat. cbn in Hcat. subst acts.
        rewrite read_loop_silent; [reflexivity |].
        destruct (lines_read (trace (read_loop lines [] [] 0))); [reflexivity | discriminate].
      * rewrite (upload_data_wait _ _ _ _ Hf Hr). cbn [trace outcome fst snd awaited submitted].
        split; [| discriminate]. intros _.
        rewrite awaited_app, submitted_app, Haw, Hs. cbn. rewrite app_nil_r.
        split; [reflexivity |]. split; [discriminate |].
        rewrite app_comm_cons, last_app. reflexivity.
    + rewrite (upload_data_flush _ _ _ _ _ Hf Hr). cbn [trace outcome fst snd awaited submitted].
      split; [| discriminate]. intros _.
      rewrite awaited_app, submitted_app, Haw. cbn. rewrite app_nil_r.
      split; [reflexivity |]. split.
      * intros E. symmetry in E. now apply app_cons_not_nil in E.
      * rewrite app_comm_cons, last_app. reflexivity.
Qed.

(** X2.  Whatever the lines, the chunk size and the limit, [upload_data]
    never creates a bulk task on an empty batch. *)
Theorem upload_never_schedules_empty :
  Forall (fun b => b <> []) (submitted (trace upload_data)).
Proof.
  destruct (fs !! data_path) as [lines|] eqn:Hf.
  2:{ rewrite (upload_data_missing Hf). constructor. }
  rewrite (upload_data_open _ Hf). cbn [trace fst submitted].
  destruct (read_loop_tasks lines [] [] 0) as (_ & Hne & _). cbv zeta in Hne.
  destruct (read_loop lines [] [] 0) as [t [e | [[ins act] i]]].
  - exact Hne.
  - rewrite bind_pair. cbn [trace fst] in *.
    rewrite submitted_app, after_loop_submitted. apply Forall_app. split; [exact Hne |].
    destruct act; constructor; [discriminate | constructor].
Qed.

(** X3.  The lines are read in order from the start of the file, none
    skipped: in every run the lines read are a prefix of the file. *)
Theorem upload_reads_a_prefix lines :
  fs !! data_path = Some lines ->
  exists rest, lines = lines_read (trace upload_data) ++ rest.
Proof.
  intros Hf. rewrite (upload_data_open _ Hf). cbn [trace fst lines_read].
  destruct (read_loop_reads lines [] [] 0) as ([rest Hrest] & _). cbv zeta in Hrest.
  exists rest.
  destruct (read_loop lines [] [] 0) as [t [e | st]].
  - exact Hrest.
  - rewrite bind_pair. cbn [trace fst] in *. rewrite lines_read_app.
    replace (lines_read (trace (after_loop st))) with (@nil string).
    + now rewrite app_nil_r.
    + destruct st as [[ins act] i]. unfold after_loop.
      destruct act as [|a act].
      * rewrite bind_ret_l. destruct ins; reflexivity.
      * cbn [bind emit ret app]. destruct (ins ++ [a :: act]); reflexivity.
Qed.

(** X4.  In every run the records scheduled, taken batch after batch,
    are the records of the first lines read, in order; and a run that
    ends normally has scheduled the record of every line it read. *)
Theorem upload_schedules_what_it_read :
  let t := trace upload_data in
  (exists m, records (take m (lines_read t)) (concat (submitted t)))
  /\ (outcome upload_data = inr tt ->
      records (lines_read t) (concat (submitted t))).
Proof.
  cbv zeta. destruct (fs !! data_path) as [lines|] eqn:Hf.
  2:{ rewrite (upload_data_missing Hf). cbn.
      split; [exists 0%nat |]; constructor. }
  destruct (read_loop_reads lines [] [] 0) as (_ & acts & buf & Hrec & Hcat & Hout).
  cbv zeta in *. cbn [app] in Hcat.
  assert (Hpre : records
            (take (length (concat (submitted (trace (read_loop lines [] [] 0)))))
               (lines_read (trace (read_loop lines [] [] 0))))
            (concat (submitted (trace (read_loop lines [] [] 0))))).
  { clear Hout. subst acts.
    pose proof (Forall2_take _ _ _
      (length (concat (submitted (trace (read_loop lines [] [] 0))))) Hrec) as H.
    rewrite take_take, take_app_length in H.
    rewrite Nat.min_l in H; [exact H |].
    rewrite length_app. lia. }
  destruct (outcome (read_loop lines [] [] 0)) as [e | [[ins act] i]] eqn:Hr.
  - rewrite (upload_data_raise _ _ Hf Hr). cbn [trace outcome fst snd lines_read submitted].
    split; [eexists; exact Hpre | discriminate].
  - destruct (Hout _ _ _ eq_refl) as [-> Hlen].
    rewrite Hlen, firstn_all in Hrec.
    destruct act as [|a act].
    + rewrite app_nil_r in Hcat. destruct ins as [|b ins].
      * rewrite (upload_data_empty _ _ Hf Hr).
        cbn [trace outcome fst snd lines_read submitted].
        split; [eexists; exact Hpre | discriminate].
      * rewrite (upload_data_wait _ _ _ _ Hf Hr).
        cbn [trace outcome fst snd lines_read submitted].
        rewrite lines_read_app, submitted_app. cbn. rewrite !app_nil_r, Hcat.
        split; [| intros _; exact Hrec].
        exists (length acts). now rewrite Hlen, firstn_all.
    + rewrite (upload_data_flush _ _ _ _ _ Hf Hr).
      cbn [trace outcome fst snd lines_read submitted].
      rewrite lines_read_app, submitted_app. cbn. rewrite !app_nil_r.
      rewrite concat_app. cbn. rewrite app_nil_r, Hcat.
      split; [| intros _; exact Hrec].
      exists (length acts). now rewrite Hlen, firstn_all.
Qed.

(** X5.  Every action of every scheduled batch is the dictionary with
    exactly the three keys [_index], [_id] and [_source]: the loader's
    index, the [str] of the [_id] of one of the lines of the file, and
    that line's [_source] as parsed; whatever else the line holds is
    left out. *)
Theorem upload_actions_shape lines b a :
  fs !! data_path = Some lines ->
  b ∈ submitted (trace upload_data) -> a ∈ b ->
  exists l obj id src,
    l ∈ lines /\ loads l = inr obj
    /\ py_getitem obj "_id" = inr id
    /\ py_getitem obj "_source" = inr src
    /\ a = PDict (<["_index" := PStr (index self)]>
                 (<["_id" := PStr (py_str id)]>
                 (<["_source" := src]> ∅))).
Proof.
  intros Hf Hb Ha.
  pose proof (upload_data_submitted_inv
    (fun a => exists l obj id src,
       l ∈ lines /\ loads l = inr obj
       /\ py_getitem obj "_id" = inr id
       /\ py_getitem obj "_source" = inr src
       /\ a = PDict (<["_index" := PStr (index self)]>
                    (<["_id" := PStr (py_str id)]>
                    (<["_source" := src]> ∅)))) lines Hf) as Hinv.
  cbv beta in Hinv.
  assert (Hall : forall l a0, l ∈ lines -> action_of l = inr a0 ->
    exists l0 obj id src,
      l0 ∈ lines /\ loads l0 = inr obj
      /\ py_getitem obj "_id" = inr id
      /\ py_getitem obj "_source" = inr src
      /\ a0 = PDict (<["_index" := PStr (index self)]>
                    (<["_id" := PStr (py_str id)]>
                    (<["_source" := src]> ∅)))).
  { intros l a0 Hin Hact. unfold action_of in Hact.
    destruct (loads l) as [e | obj] eqn:Hl; [discriminate |].
    unfold make_action in Hact.
    destruct (py_getitem obj "_id") as [e | id] eqn:Hid; [discriminate |].
    destruct (py_getitem obj "_source") as [e | src] eqn:Hsrc; [discriminate |].
    injection Hact as <-. exists l, obj, id, src. repeat split; assumption. }
  specialize (Hinv Hall).
  rewrite Forall_forall in Hinv. specialize (Hinv b Hb).
  rewrite Forall_forall in Hinv. exact (Hinv a Ha).
Qed.

(** ** Progress lines *)

Lemma read_loop_progress lines acts :
  records lines acts ->
  limit self = None ->
  chunk_size self <> 0 ->
  forall ins act i,
  logged (trace (read_loop lines ins act i))
  = map (fun j => pretty j +:+ " documents loaded")
      (filter (fun j => j mod chunk_size self = 0)
         (seqZ (i + 1) (Z.of_nat (length lines)))).
Proof.
  intros Hrec Hlim Hc. induction Hrec as [|l a lines acts Hl Hrec IH]; intros ins act i.
  - reflexivity.
  - assert (Hnl : limit_reached (limit self) (i + 1) = false) by now rewrite Hlim.
    rewrite seqZ_cons by (cbn [length]; lia).
    replace (Z.pred (Z.of_nat (length (l :: lines)))) with (Z.of_nat (length lines))
      by (cbn [length]; lia).
    replace (Z.succ (i + 1)) with (i + 1 + 1) by lia.
    destruct (Z.eq_dec ((i + 1) mod chunk_size self) 0) as [Hm | Hm].
    + rewrite (read_loop_flush _ _ _ _ _ _ Hl Hnl Hc Hm).
      cbn [trace fst logged]. rewrite filter_cons_True by exact Hm.
      cbn [map]. now rewrite IH.
    + rewrite (read_loop_keep _ _ _ _ _ _ Hl Hnl Hc Hm).
      cbn [trace fst logged]. rewrite filter_cons_False by exact Hm.
      apply IH.
Qed.

Lemma after_loop_logged st :
  outcome (after_loop st) = inr tt ->
  logged (trace (after_loop st)) = ["Data upload finished!"].
Proof.
  destruct st as [[ins act] i]. unfold after_loop. destruct act as [|a act].
  - rewrite bind_ret_l. destruct ins; [discriminate | reflexivity].
  - cbn [bind emit ret app]. destruct (ins ++ [a :: act]); [discriminate | reflexivity].
Qed.

(** X6.  With no limit, on a stream of records that is not empty, the
    log of [upload_data] is one progress line for each multiple of
    [chunk_size] among the counts 1 to the number of lines, in
    increasing order, giving that count, and then the completion line. *)
Theorem upload_progress_lines lines acts :
  fs !! data_path = Some lines ->
  records lines acts ->
  lines <> [] ->
  limit self = None ->
  chunk_size self <> 0 ->
  logged (trace upload_data)
  = map (fun j => pretty j +:+ " documents loaded")
      (filter (fun j => j mod chunk_size self = 0)
         (seqZ 1 (Z.of_nat (length lines))))
    ++ ["Data upload finished!"].
Proof.
  intros Hf Hrec Hne Hlim Hc.
  assert (Hok : outcome upload_data = inr tt).
  { pose proof (Forall2_take _ _ _ (read_count (length lines)) Hrec) as Hk.
    destruct (upload_data_reads lines _ Hf Hc Hne Hk) as (t & bs & b & -> & _).
    reflexivity. }
  rewrite (upload_data_open _ Hf) in Hok |- *. cbn zeta in *.
  cbn [trace outcome fst snd logged] in *.
  pose proof (read_loop_progress lines acts Hrec Hlim Hc [] [] 0) as Hlog.
  destruct (read_loop lines [] [] 0) as [t [e | st]].
  - discriminate.
  - rewrite bind_pair in *. cbn [trace outcome fst snd] in *.
    rewrite logged_app, Hlog, (after_loop_logged _ Hok). reflexivity.
Qed.

(** ** Edges of the chunk size and of the limit *)

(** X7.  With a chunk size of [0], a run whose first line is a record
    (and whose limit is not reached by it) raises [ZeroDivisionError]
    after reading that one line: nothing is scheduled. *)
Theorem upload_chunk_zero_raises l rest a :
  fs !! data_path = Some (l :: rest) ->
  action_of l = inr a ->
  chunk_size self = 0 ->
  limit_reached (limit self) 1 = false ->
  upload_data = ([Open data_path; ReadLine l], inl ZeroDivisionError).
Proof.
  intros Hf Ha Hc Hl.
  pose proof (read_loop_zero l rest [] [] 0 a Ha Hl Hc) as Hrun.
  rewrite (upload_data_raise _ ZeroDivisionError Hf); now rewrite Hrun.
Qed.

(** X8.  A limit of [1], or a negative limit, is reached by the first
    line: a run whose first line is a record reads that line only,
    schedules it as a batch of one and ends normally, whatever the chunk
    size, [0] included. *)
Theorem upload_small_limit_reads_one l rest a L :
  fs !! data_path = Some (l :: rest) ->
  action_of l = inr a ->
  limit self = Some L ->
  L <> 0 -> L <= 1 ->
  upload_data
  = ([Open data_path; ReadLine l; CreateTask [a]; Wait [[a]];
      LogInfo "Data upload finished!"], inr tt).
Proof.
  intros Hf Ha Hlim HL0 HL1.
  assert (Hl : limit_reached (limit self) (0 + 1) = true).
  { rewrite Hlim. cbn [limit_reached].
    destruct (Z.eqb_spec L 0); [contradiction |]. cbn [negb andb].
    apply Z.leb_le. lia. }
  pose proof (read_loop_break l rest [] [] 0 a Ha Hl) as Hrun.
  rewrite (upload_data_flush _ [] a [] (0 + 1) Hf); now rewrite Hrun.
Qed.

(** ** Every run of the metadata step *)

Lemma strip_settings_inr s s' :
  strip_settings s = inr s' ->
  exists d,
    s = PDict d
    /\ s' = PDict (delete "version" (delete "uuid" (delete "creation_date"
                    (delete "provided_name" (delete "routing" d))))).
Proof.
  unfold strip_settings. intros H.
  destruct (py_pop s "routing") as [|s1] eqn:E1; [discriminate |].
  destruct (py_pop s1 "provided_name") as [|s2] eqn:E2; [discriminate |].
  destruct (py_pop s2 "creation_date") as [|s3] eqn:E3; [discriminate |].
  destruct (py_pop s3 "uuid") as [|s4] eqn:E4; [discriminate |].
  apply py_pop_inr in E1 as (d & -> & _ & ->).
  apply py_pop_inr in E2 as (d2 & [= <-] & _ & ->).
  apply py_pop_inr in E3 as (d3 & [= <-] & _ & ->).
  apply py_pop_inr in E4 as (d4 & [= <-] & _ & ->).
  apply py_pop_inr in H as (d5 & [= <-] & _ & ->).
  now exists d.
Qed.

(** The metadata step stops after the first open, after the second, or
    goes on to the one create-index call, whose outcome decides the
    rest. *)
Lemma create_index_shapes :
  (exists e, create_index_with_meta = ([Open settings_path], inl e))
  \/ (exists e,
        create_index_with_meta = ([Open settings_path; Open mappings_path], inl e))
  \/ (exists sf mf parsed settings stripped mappings,
        fs !! settings_path = Some sf
        /\ fs !! mappings_path = Some mf
        /\ loads (readline sf) = inr parsed
        /\ py_getitem parsed "index" = inr settings
        /\ strip_settings settings = inr stripped
        /\ loads (readline mf) = inr mappings
        /\ let body := PDict (<["settings" := stripped]>
                             (<["mappings" := mappings]> ∅)) in
           let t := [Open settings_path; Open mappings_path;
                     IndicesCreate (index self) body] in
           match es_indices_create (index self) body with
           | inl e => create_index_with_meta = (t, inl e)
           | inr res =>
               match py_get res "acknowledged" with
               | inl e => create_index_with_meta = (t, inl e)
               | inr ack =>
                   create_index_with_meta
                   = (t ++ [LogInfo (if py_truthy ack
                                     then "Index created sucessfully!"
                                     else "Index creation failed!")], inr tt)
               end
           end).
Proof.
  unfold create_index_with_meta, py_open. fold settings_path mappings_path.
  destruct (fs !! settings_path) as [sf|] eqn:Hsf; [| left; now eexists].
  destruct (fs !! mappings_path) as [mf|] eqn:Hmf; [| right; left; now eexists].
  cbn [bind emit ret app].
  destruct (loads (readline sf)) as [e | parsed] eqn:Hp; [right; left; now eexists |].
  rewrite bind_lift_inr.
  destruct (py_getitem parsed "index") as [e | settings] eqn:Hi;
    [right; left; now eexists |].
  rewrite bind_lift_inr.
  destruct (strip_settings settings) as [e | stripped] eqn:Hs;
    [right; left; now eexists |].
  rewrite bind_lift_inr.
  destruct (loads (readline mf)) as [e | mappings] eqn:Hm;
    [right; left; now eexists |].
  rewrite bind_lift_inr.
  right; right. exists sf, mf, parsed, settings, stripped, mappings.
  do 6 (split; [first [reflexivity | assumption] |]). cbv zeta.
  destruct (es_indices_create _ _) as [e | res]; [reflexivity |].
  rewrite bind_lift_inr.
  destruct (py_get res "acknowledged") as [e | ack]; [reflexivity |].
  rewrite bind_lift_inr. reflexivity.
Qed.

(** X11.  Whatever happens, a run makes at most one create-index call,
    on the loader's index, and the [settings] it sends are the [index]
    entry of the parsed settings file without [routing],
    [provided_name], [creation_date], [uuid] and [version]: none of the
    five is ever sent, and every other entry is sent as parsed.  The body
    holds [settings] and [mappings] and nothing else. *)
Theorem start_create_call_is_stripped :
  create_calls (trace start) = []
  \/ exists sf mf parsed d mappings,
       fs !! settings_path = Some sf
       /\ fs !! mappings_path = Some mf
       /\ loads (readline sf) = inr parsed
       /\ py_getitem parsed "index" = inr (PDict d)
       /\ loads (readline mf) = inr mappings
       /\ let d' := delete "version" (delete "uuid" (delete "creation_date"
                      (delete "provided_name" (delete "routing" d)))) in
          create_calls (trace start)
          = [(index self,
              PDict (<["settings" := PDict d']> (<["mappings" := mappings]> ∅)))]
          /\ d' !! "routing" = None /\ d' !! "provided_name" = None
          /\ d' !! "creation_date" = None /\ d' !! "uuid" = None
          /\ d' !! "version" = None
          /\ (forall k, k <> "routing" -> k <> "provided_name" ->
                k <> "creation_date" -> k <> "uuid" -> k <> "version" ->
                d' !! k = d !! k).
Proof.
  destruct upload_data_quiet as [_ Hup].
  unfold start. destruct (String.eqb (mode self) "default"); [| now left].
  destruct create_index_shapes as [[e H] | [[e H] | H]].
  - left. now rewrite H.
  - left. now rewrite H.
  - destruct H as (sf & mf & parsed & settings & stripped & mappings
                   & Hsf & Hmf & Hp & Hi & Hs & Hm & H).
    destruct (strip_settings_inr _ _ Hs) as (d & -> & ->).
    right. exists sf, mf, parsed, d, mappings.
    do 5 (split; [assumption |]). cbv zeta in *.
    assert (Hcalls : create_calls (trace (create_index_with_meta ;;; upload_data))
      = [(index self,
          PDict (<["settings" := PDict
                     (delete "version" (delete "uuid" (delete "creation_date"
                        (delete "provided_name" (delete "routing" d)))))]>
                (<["mappings" := mappings]> ∅)))]).
    { destruct (es_indices_create _ _) as [e | res].
      - now rewrite H.
      - destruct (py_get res "acknowledged") as [e | ack].
        + now rewrite H.
        + rewrite H, bind_pair. cbn [trace fst].
          rewrite create_calls_app, Hup. reflexivity. }
    split; [exact Hcalls |].
    repeat rewrite lookup_delete_ne by done.
    do 5 (split; [now rewrite ?lookup_delete_ne, lookup_delete_eq by done |]).
    intros k ? ? ? ? ?. now rewrite !lookup_delete_ne by done.
Qed.

(** X12.  An exception of the create-index call is not caught: with
    well-formed metadata files the step ends with that exception right
    after the call, logging nothing, and in [default] mode so does the
    whole run, before [data.json] is opened. *)
Theorem create_index_client_error
    sf mf parsed settings stripped mappings e :
  fs !! settings_path = Some sf ->
  fs !! mappings_path = Some mf ->
  loads (readline sf) = inr parsed ->
  py_getitem parsed "index" = inr settings ->
  strip_settings settings = inr stripped ->
  loads (readline mf) = inr mappings ->
  let body := PDict (<["settings" := stripped]> (<["mappings" := mappings]> ∅)) in
  es_indices_create (index self) body = inl e ->
  let t := [Open settings_path; Open mappings_path;
            IndicesCreate (index self) body] in
  create_index_with_meta = (t, inl e)
  /\ (mode self = "default" -> start = (t, inl e)).
Proof.
  intros Hsf Hmf Hp Hi Hs Hm body Hres t.
  assert (Hmeta : create_index_with_meta = (t, inl e)).
  { unfold create_index_with_meta, py_open. fold settings_path mappings_path.
    rewrite Hsf, Hmf. cbn [bind emit ret app].
    rewrite Hp, bind_lift_inr, Hi, bind_lift_inr, Hs, bind_lift_inr.
    rewrite Hm, bind_lift_inr. fold body. rewrite Hres. reflexivity. }
  split; [exact Hmeta |].
  intros Hmode. unfold start. rewrite Hmode. cbn [String.eqb Ascii.eqb Bool.eqb].
  now rewrite Hmeta.
Qed.

(** X13.  When the metadata files are well formed and the create-index
    call returns a result whose [acknowledged] entry is true (or any
    other value that counts as true), the step logs the success line and
    returns, and in [default] mode the whole of [upload_data] follows. *)
Theorem create_index_acknowledged
    sf mf parsed settings stripped mappings res :
  fs !! settings_path = Some sf ->
  fs !! mappings_path = Some mf ->
  loads (readline sf) = inr parsed ->
  py_getitem parsed "index" = inr settings ->
  strip_settings settings = inr stripped ->
  loads (readline mf) = inr mappings ->
  let body := PDict (<["settings" := stripped]> (<["mappings" := mappings]> ∅)) in
  es_indices_create (index self) body = inr (PDict res) ->
  py_truthy (default PNone (res !! "acknowledged")) = true ->
  let t := [Open settings_path; Open mappings_path;
            IndicesCreate (index self) body;
            LogInfo "Index created sucessfully!"] in
  create_index_with_meta = (t, inr tt)
  /\ (mode self = "default" ->
      start = (t ++ trace upload_data, outcome upload_data)).
Proof.
  intros Hsf Hmf Hp Hi Hs Hm body Hres Hack t.
  assert (Hmeta : create_index_with_meta = (t, inr tt)).
  { unfold create_index_with_meta, py_open. fold settings_path mappings_path.
    rewrite Hsf, Hmf. cbn [bind emit ret app].
    rewrite Hp, bind_lift_inr, Hi, bind_lift_inr, Hs, bind_lift_inr.
    rewrite Hm, bind_lift_inr. fold body.
    rewrite Hres, bind_lift_inr. cbn [py_get]. rewrite bind_lift_inr, Hack.
    reflexivity. }
  split; [exact Hmeta |].
  intros Hmode. unfold start. rewrite Hmode. cbn [String.eqb Ascii.eqb Bool.eqb].
  rewrite Hmeta. apply bind_pair.
Qed.

(** X14.  On a dictionary, [strip_settings] succeeds when all five keys
    are present, and otherwise raises the [KeyError] of the first absent
    one in the order [routing], [provided_name], [creation_date],
    [uuid], [version]. *)
Theorem strip_settings_first_missing d :
  (is_Some (d !! "routing") -> is_Some (d !! "provided_name") ->
   is_Some (d !! "creation_date") -> is_Some (d !! "uuid") ->
   is_Some (d !! "version") ->
   strip_settings (PDict d)
   = inr (PDict (delete "version" (delete "uuid" (delete "creation_date"
                  (delete "provided_name" (delete "routing" d)))))))
  /\ (forall pre k post,
        ["routing"; "provided_name"; "creation_date"; "uuid"; "version"]
        = pre ++ k :: post ->
        Forall (fun k' => is_Some (d !! k')) pre ->
        d !! k = None ->
        strip_settings (PDict d) = inl (KeyError k)).
Proof.
  assert (Hpop : forall (m : gmap string pyval) k,
            is_Some (m !! k) -> py_pop (PDict m) k = inr (PDict (delete k m))).
  { intros m k [x Hx]. cbn. now rewrite Hx. }
  assert (Hpop' : forall (m : gmap string pyval) k,
            m !! k = None -> py_pop (PDict m) k = inl (KeyError k)).
  { intros m k Hx. cbn. now rewrite Hx. }
  split.
  - intros H1 H2 H3 H4 H5. unfold strip_settings.
    rewrite (Hpop _ _ H1).
    rewrite Hpop by (now rewrite lookup_delete_ne by done).
    rewrite Hpop by (now rewrite !lookup_delete_ne by done).
    rewrite Hpop by (now rewrite !lookup_delete_ne by done).
    rewrite Hpop by (now rewrite !lookup_delete_ne by done).
    reflexivity.
  - intros pre k post E Hpre Hk. unfold strip_settings.
    destruct pre as [|k1 pre]; cbn in E.
    { injection E as <- _. now rewrite (Hpop' _ _ Hk). }
    injection E as <- E. inversion Hpre as [|? ? H1 Hpre1]; subst.
    rewrite (Hpop _ _ H1).
    destruct pre as [|k2 pre]; cbn in E.
    { injection E as <- _. rewrite Hpop'; [reflexivity |].
      now rewrite lookup_delete_ne by done. }
    injection E as <- E. inversion Hpre1 as [|? ? H2 Hpre2]; subst.
    rewrite Hpop by (now rewrite lookup_delete_ne by done).
    destruct pre as [|k3 pre]; cbn in E.
    { injection E as <- _. rewrite Hpop'; [reflexivity |].
      now rewrite !lookup_delete_ne by done. }
    injection E as <- E. inversion Hpre2 as [|? ? H3 Hpre3]; subst.
    rewrite Hpop by (now rewrite !lookup_delete_ne by done).
    destruct pre as [|k4 pre]; cbn in E.
    { injection E as <- _. rewrite Hpop'; [reflexivity |].
      now rewrite !lookup_delete_ne by done. }
    injection E as <- E. inversion Hpre3 as [|? ? H4 Hpre4]; subst.
    rewrite Hpop by (now rewrite !lookup_delete_ne by done).
    destruct pre as [|k5 pre]; cbn in E.
    { injection E as <- _. rewrite Hpop'; [reflexivity |].
      now rewrite !lookup_delete_ne by done. }
    injection E as _ E. now destruct pre.
Qed.

(** X15.  In [default] mode nothing of the upload happens before the
    metadata step is over: any reading of a line, creation of a task or
    wait in the run comes after both opens, the create-index call and
    the line logged on its result. *)
Theorem start_creates_index_before_upload t1 ev t2 :
  mode self = "default" ->
  trace start = t1 ++ ev :: t2 ->
  match ev with
  | ReadLine _ | CreateTask _ | Wait _ => True
  | _ => False
  end ->
  exists body msg t1',
    t1 = Open settings_path :: Open mappings_path
         :: IndicesCreate (index self) body :: LogInfo msg :: t1'.
Proof.
  intros Hmode Ht Hev. unfold start in Ht. rewrite Hmode in Ht.
  cbn [String.eqb Ascii.eqb Bool.eqb] in Ht.
  assert (Hcut : forall body msg tu,
    Open settings_path :: Open mappings_path
      :: IndicesCreate (index self) body :: LogInfo msg :: tu = t1 ++ ev :: t2 ->
    exists body msg t1',
      t1 = Open settings_path :: Open mappings_path
           :: IndicesCreate (index self) body :: LogInfo msg :: t1').
  { intros body msg tu E.
    destruct t1 as [|e1 [|e2 [|e3 [|e4 t1']]]]; cbn in E;
      try (injection E as; subst; contradiction).
    injection E as <- <- <- <- _. now exists body, msg, t1'. }
  assert (Hshort : forall t e,
    (t = [Open settings_path] \/ t = [Open settings_path; Open mappings_path]
     \/ exists body, t = [Open settings_path; Open mappings_path;
                          IndicesCreate (index self) body]) ->
    trace (((t, inl e) : M unit) ;;; upload_data) = t1 ++ ev :: t2 -> False).
  { intros t e Hshape E. cbn in E.
    destruct Hshape as [-> | [-> | [body ->]]];
      destruct t1 as [|e1 [|e2 [|e3 [|e4 t1']]]]; cbn in E;
      try discriminate; injection E as; subst; try contradiction;
      try discriminate. }
  destruct create_index_shapes as [[e H] | [[e H] | H]].
  - exfalso. rewrite H in Ht. eapply Hshort; [| exact Ht]. now left.
  - exfalso. rewrite H in Ht. eapply Hshort; [| exact Ht]. right; now left.
  - destruct H as (sf & mf & parsed & settings & stripped & mappings
                   & _ & _ & _ & _ & _ & _ & H).
    cbv zeta in H.
    destruct (es_indices_create _ _) as [e | res].
    { exfalso. rewrite H in Ht. eapply Hshort; [| exact Ht]. right; right; now eexists. }
    destruct (py_get res "acknowledged") as [e | ack].
    { exfalso. rewrite H in Ht. eapply Hshort; [| exact Ht]. right; right; now eexists. }
    rewrite H, bind_pair in Ht. cbn [trace fst app] in Ht.
    eapply Hcut. exact Ht.
Qed.

(** ** Entering, running, leaving *)

Lemma py_split_length sep s :
  length (py_split sep s) = S (count_char sep s).
Proof.
  induction s as [|c s IH]; [reflexivity |]. cbn [py_split count_char].
  destruct (Ascii.eqb c sep).
  - cbn [length]. now rewrite IH.
  - destruct (py_split sep s) as [|w ws]; [discriminate |]. exact IH.
Qed.

Lemma py_split_none sep s : count_char sep s = 0%nat -> py_split sep s = [s].
Proof.
  induction s as [|c s IH]; [reflexivity |]. cbn [py_split count_char].
  destruct (Ascii.eqb c sep); [discriminate |]. intros H. now rewrite (IH H).
Qed.

Lemma py_split_app sep h p :
  count_char sep h = 0%nat ->
  py_split sep (h +:+ String sep p) = h :: py_split sep p.
Proof.
  induction h as [|c h IH].
  - intros _. change (py_split sep (String sep p) = "" :: py_split sep p).
    cbn [py_split]. now rewrite Ascii.eqb_refl.
  - change (String c h +:+ String sep p) with (String c (h +:+ String sep p)).
    cbn [py_split count_char].
    destruct (Ascii.eqb c sep); [discriminate |]. intros H. now rewrite (IH H).
Qed.

Lemma add_connections_ok host port n : forall k,
  (forall j, (k <= j < k + n)%nat -> es_add_connection j host port = inr tt) ->
  add_connections host port n k = (repeat (AddConnection host port) n, inr tt).
Proof.
  induction n as [|n IH]; intros k Hall; [reflexivity |].
  cbn [add_connections repeat]. rewrite (Hall k) by lia.
  rewrite (IH (S k)); [reflexivity |]. intros j Hj. apply Hall. lia.
Qed.

Lemma add_connections_raise host port n m e : forall k,
  (m < n)%nat ->
  (forall j, (k <= j < k + m)%nat -> es_add_connection j host port = inr tt) ->
  es_add_connection (k + m) host port = inl e ->
  add_connections host port n k = (repeat (AddConnection host port) m, inl e).
Proof.
  revert m. induction n as [|n IH]; intros m k Hm Hall He; [lia |].
  cbn [add_connections]. destruct m as [|m].
  - rewrite Nat.add_0_r in He. now rewrite He.
  - rewrite (Hall k) by lia.
    rewrite (IH m (S k)); [reflexivity | lia | |].
    + intros j Hj. apply Hall. lia.
    + now replace (S k + m)%nat with (k + S m)%nat by lia.
Qed.

(** X16.  [__aenter__] raises [ValueError] before anything is built when
    the address has no colon or several (a URL with a scheme, an IPv6
    literal) or when its port part is not an integer; it raises what the
    client's constructor raises, with nothing built.  When the
    constructor returns, one client is built on the whole address, and
    connections are added to the host and port: when all
    [connection_pool_size - 1] calls return (there is none when the size
    is 1 or less) the log handler is added and [__aenter__] returns;
    when a call raises, [__aenter__] raises that, with the client built
    and the connections added so far, and no handler. *)
Theorem aenter_address :
  (count_char ":" (elastic_address self) <> 1%nat ->
   __aenter__ = ([], inl ValueError))
  /\ (forall h p,
        elastic_address self = h +:+ String ":" p ->
        count_char ":" h = 0%nat -> count_char ":" p = 0%nat ->
        match py_int p with
        | None => __aenter__ = ([], inl ValueError)
        | Some port =>
            match es_new (elastic_address self) with
            | inl e => __aenter__ = ([], inl e)
            | inr _ =>
                let n := Z.to_nat (connection_pool_size self - 1) in
                ((forall j, (j < n)%nat -> es_add_connection j h port = inr tt) ->
                 __aenter__
                 = (NewClient (elastic_address self)
                    :: repeat (AddConnection h port) n ++ [AddHandler], inr tt))
                /\ (forall m e,
                      (m < n)%nat ->
                      (forall j, (j < m)%nat -> es_add_connection j h port = inr tt) ->
                      es_add_connection m h port = inl e ->
                      __aenter__
                      = (NewClient (elastic_address self)
                         :: repeat (AddConnection h port) m, inl e))
            end
        end).
Proof.
  split.
  - intros Hn. unfold __aenter__.
    pose proof (py_split_length ":" (elastic_address self)) as Hlen.
    destruct (py_split ":" (elastic_address self)) as [|a [|b [|c l]]];
      try reflexivity.
    cbn in Hlen. exfalso. apply Hn. lia.
  - intros h p E Hh Hp.
    assert (Hsplit : py_split ":" (elastic_address self) = [h; p]).
    { rewrite E. now rewrite (py_split_app _ _ _ Hh), (py_split_none _ _ Hp). }
    destruct (py_int p) as [port|] eqn:Hint.
    2:{ unfold __aenter__. now rewrite Hsplit, Hint. }
    destruct (es_new (elastic_address self)) as [e | []] eqn:Hnew.
    { unfold __aenter__. now rewrite Hsplit, Hint, Hnew. }
    cbv zeta. split.
    + intros Hall. unfold __aenter__. rewrite Hsplit, Hint, Hnew.
      rewrite add_connections_ok; [reflexivity |].
      intros j Hj. apply Hall. lia.
    + intros m e Hm Hall He. unfold __aenter__. rewrite Hsplit, Hint, Hnew.
      rewrite (add_connections_raise _ _ _ m e 0 Hm); [reflexivity | | exact He].
      intros j Hj. apply Hall. lia.
Qed.

Lemma clients_made_app t1 t2 :
  clients_made (t1 ++ t2) = (clients_made t1 + clients_made t2)%nat.
Proof. induction t1 as [|[] t1 IH]; cbn; rewrite ?IH; reflexivity. Qed.

Lemma clients_closed_app t1 t2 :
  clients_closed (t1 ++ t2) = (clients_closed t1 + clients_closed t2)%nat.
Proof. induction t1 as [|[] t1 IH]; cbn; rewrite ?IH; reflexivity. Qed.

Lemma run_events_app t1 t2 : run_events (t1 ++ t2) = run_events t1 ++ run_events t2.
Proof. induction t1 as [|[] t1 IH]; cbn; rewrite ?IH; reflexivity. Qed.

Lemma run_events_map t : run_events (map Run t) = t.
Proof. induction t as [|ev t IH]; cbn; rewrite ?IH; reflexivity. Qed.

Lemma map_Run_counts t :
  clients_made (map Run t) = 0%nat /\ clients_closed (map Run t) = 0%nat.
Proof. induction t as [|ev t IH]; cbn; [split; reflexivity | exact IH]. Qed.

Lemma repeat_counts (ev : client_event) n :
  match ev with NewClient _ | CloseClient | Run _ => False | _ => True end ->
  clients_made (repeat ev n) = 0%nat
  /\ clients_closed (repeat ev n) = 0%nat
  /\ run_events (repeat ev n) = [].
Proof.
  intros Hev. induction n as [|n IH]; [repeat split |].
  destruct ev; try contradiction; cbn; exact IH.
Qed.

Lemma add_connections_events host port n : forall k,
  clients_made (fst (add_connections host port n k)) = 0%nat
  /\ clients_closed (fst (add_connections host port n k)) = 0%nat
  /\ run_events (fst (add_connections host port n k)) = [].
Proof.
  induction n as [|n IH]; intros k; [repeat split |].
  cbn [add_connections]. destruct (es_add_connection k host port); [repeat split |].
  specialize (IH (S k)). destruct (add_connections host port n (S k)) as [t r].
  exact IH.
Qed.

(** Whatever [__aenter__] does, it runs nothing of the loader, closes
    nothing and builds at most one client. *)
Lemma aenter_events :
  (clients_made (fst __aenter__) <= 1)%nat
  /\ clients_closed (fst __aenter__) = 0%nat
  /\ run_events (fst __aenter__) = []
  /\ (snd __aenter__ = inr tt -> clients_made (fst __aenter__) = 1%nat).
Proof.
  assert (Hnone : forall e : exn,
    (clients_made (fst (([], inl e) : list client_event * (exn + unit))) <= 1)%nat
    /\ clients_closed (fst (([], inl e) : list client_event * (exn + unit))) = 0%nat
    /\ run_events (fst (([], inl e) : list client_event * (exn + unit))) = []
    /\ (snd (([], inl e) : list client_event * (exn + unit)) = inr tt ->
        clients_made (fst (([], inl e) : list client_event * (exn + unit))) = 1%nat)).
  { intros e. cbn. repeat split; try lia; try discriminate; try reflexivity. }
  unfold __aenter__.
  destruct (py_split ":" (elastic_address self)) as [|h [|p [|c l]]];
    try apply Hnone.
  destruct (py_int p) as [n|]; [| apply Hnone].
  destruct (es_new (elastic_address self)) as [e | u]; [apply Hnone |].
  destruct (add_connections_events h n
              (Z.to_nat (connection_pool_size self - 1)) 0) as (H1 & H2 & H3).
  destruct (add_connections h n (Z.to_nat (connection_pool_size self - 1)) 0)
    as [t [e | u']]; cbn [fst snd] in *.
  - cbn [clients_made clients_closed run_events]. rewrite H1, H2, H3.
    repeat split; try lia; try discriminate; try reflexivity.
  - cbn [clients_made clients_closed run_events].
    rewrite clients_made_app, clients_closed_app, run_events_app, H1, H2, H3.
    repeat split; try lia; try reflexivity.
Qed.

(** X17.  When [__aenter__] returns, [main] runs [start] and then
    [__aexit__], also when [start] raises: the events of the run are
    those of [start]; when [es.close()] returns, the client is closed
    once, after every event of the run, then the handlers, and the
    outcome of [main] is that of [start]; when [es.close()] raises,
    [main] raises that.  When [__aenter__] raises, [main] raises the
    same, nothing of the loader is run and nothing is closed, also when
    the client had been built already. *)
Theorem main_closes_after_entering handlers :
  (forall entered,
     __aenter__ = (entered, inr tt) ->
     run_events (fst (main handlers)) = trace start
     /\ (es_close = inr tt ->
         main handlers
         = ((entered ++ map Run (trace start))
              ++ CloseClient :: repeat CloseHandler (S handlers),
            outcome start)
         /\ clients_made (fst (main handlers)) = 1%nat
         /\ clients_closed (fst (main handlers)) = 1%nat)
     /\ (forall e, es_close = inl e ->
           snd (main handlers) = inl e
           /\ clients_closed (fst (main handlers)) = 0%nat))
  /\ (forall entered e,
        __aenter__ = (entered, inl e) ->
        main handlers = (entered, inl e)
        /\ run_events (fst (main handlers)) = []
        /\ clients_closed (fst (main handlers)) = 0%nat).
Proof.
  destruct aenter_events as (Hle & Hc & Hr & Hm).
  destruct (map_Run_counts (trace start)) as [Hm' Hc'].
  destruct (repeat_counts CloseHandler (S handlers) I) as (Hm'' & Hc'' & Hr'').
  unfold main, __aexit__. split.
  - intros entered E. rewrite E in *. cbn [fst snd] in *. specialize (Hm eq_refl).
    split; [| split].
    + destruct es_close as [e | u]; cbn [fst].
      * rewrite !run_events_app, Hr, run_events_map. cbn. now rewrite app_nil_r.
      * rewrite !run_events_app. cbn [run_events].
        rewrite Hr, run_events_map, Hr''. cbn. now rewrite app_nil_r.
    + intros ->. cbn [fst snd]. split; [now rewrite <- app_assoc |]. split.
      * rewrite !clients_made_app. cbn [clients_made]. rewrite Hm, Hm', Hm''. reflexivity.
      * rewrite !clients_closed_app. cbn [clients_closed]. rewrite Hc, Hc', Hc''. reflexivity.
    + intros e ->. cbn [fst snd]. split; [reflexivity |].
      rewrite !clients_closed_app, Hc, Hc'. reflexivity.
  - intros entered e E. rewrite E in *. cbn [fst snd] in *.
    split; [reflexivity |]. split; assumption.
Qed.

End Loader.

(** ** A limit of zero *)

Lemma read_loop_limit_zero ujson_loads py_repr self :
  limit self = Some 0 ->
  forall lines ins act i,
  read_loop ujson_loads py_repr self lines ins act i
  = read_loop ujson_loads py_repr (no_limit self) lines ins act i.
Proof.
  intros H0. induction lines as [|l rest IH]; intros ins act i; [reflexivity |].
  rewrite !read_loop_cons.
  change (action_of ujson_loads py_repr (no_limit self) l)
    with (action_of ujson_loads py_repr self l).
  change (chunk_size (no_limit self)) with (chunk_size self).
  change (limit (no_limit self)) with (@None Z).
  rewrite H0. cbn [limit_reached Z.eqb negb andb].
  destruct (action_of ujson_loads py_repr self l) as [e | a]; [reflexivity |].
  rewrite !bind_emit, !bind_lift_inr.
  destruct (py_mod (i + 1) (chunk_size self)) as [e | r]; [reflexivity |].
  rewrite !bind_lift_inr. destruct (r =? 0).
  - rewrite !bind_emit. now rewrite IH.
  - now rewrite IH.
Qed.

(** C9.  A limit of [0] is no limit: the run is the very run of the same
    loader with the limit unset, and on a stream of records it reads
    every line and schedules every record. *)
Theorem upload_limit_zero_is_no_limit ujson_loads py_repr fs self :
  limit self = Some 0 ->
  upload_data ujson_loads py_repr fs self
  = upload_data ujson_loads py_repr fs (no_limit self)
  /\ (forall lines acts,
        fs !! data_path self = Some lines ->
        records ujson_loads py_repr self lines acts ->
        chunk_size self <> 0 ->
        let t := trace (upload_data ujson_loads py_repr fs self) in
        lines_read t = lines /\ concat (submitted t) = acts).
Proof.
  intros H0. split.
  - unfold upload_data. change (input_dir (no_limit self)) with (input_dir self).
    destruct (py_open fs (os_path_join (input_dir self) "data.json")) as [t [e | f]];
      [reflexivity |].
    rewrite !bind_pair. now rewrite (read_loop_limit_zero _ _ _ H0).
  - intros lines acts Hf Hrec Hc t. subst t.
    assert (Hk : read_count self (length lines) = length lines).
    { unfold read_count. now rewrite H0. }
    destruct lines as [|l lines'].
    + rewrite (upload_data_no_lines _ _ _ _ Hf).
      apply Forall2_nil_inv_l in Hrec as ->. split; reflexivity.
    + set (lines := l :: lines') in *.
      assert (Hne : lines <> []) by discriminate.
      pose proof Hrec as Hrec'.
      rewrite <- (firstn_all lines), <- Hk in Hrec'.
      destruct (upload_data_reads _ _ _ _ lines acts Hf Hc Hne Hrec')
        as (t & bs & b & Hrun & Hrd & Hsub & _ & Hcat & _).
      rewrite Hrun. cbn [trace fst]. rewrite Hrd, Hsub, Hcat, Hk.
      split; [apply firstn_all | reflexivity].
Qed.

(** ** Loaders that run alike *)

Lemma mod_opp_zero x c : c <> 0 -> (x mod (- c) =? 0) = (x mod c =? 0).
Proof.
  intros Hc.
  destruct (Z.eqb_spec (x mod c) 0) as [H | H].
  - apply Z.eqb_eq. now apply Z.mod_opp_r_z.
  - apply Z.eqb_neq. rewrite Z.mod_opp_r_nz by assumption.
    pose proof (Z.mod_bound_or x c Hc). lia.
Qed.

Lemma read_loop_chunk_sign ujson_loads py_repr self c :
  forall lines ins act i,
  read_loop ujson_loads py_repr (with_chunk_size (- c) self) lines ins act i
  = read_loop ujson_loads py_repr (with_chunk_size c self) lines ins act i.
Proof.
  induction lines as [|l rest IH]; intros ins act i; [reflexivity |].
  rewrite !read_loop_cons.
  change (action_of ujson_loads py_repr (with_chunk_size (- c) self) l)
    with (action_of ujson_loads py_repr (with_chunk_size c self) l).
  change (limit (with_chunk_size (- c) self)) with (limit (with_chunk_size c self)).
  change (chunk_size (with_chunk_size (- c) self)) with (- c).
  change (chunk_size (with_chunk_size c self)) with c.
  destruct (action_of ujson_loads py_repr (with_chunk_size c self) l) as [e | a];
    [reflexivity |].
  rewrite !bind_emit, !bind_lift_inr.
  destruct (limit_reached (limit (with_chunk_size c self)) (i + 1)); [reflexivity |].
  unfold py_mod. destruct (Z.eqb_spec c 0) as [-> | Hc]; [reflexivity |].
  destruct (Z.eqb_spec (- c) 0) as [| _]; [lia |].
  rewrite !bind_lift_inr, (mod_opp_zero _ _ Hc).
  destruct ((i + 1) mod c =? 0).
  - rewrite !bind_emit. now rewrite IH.
  - now rewrite IH.
Qed.

(** X9.  The sign of the chunk size does not matter: with a chunk size
    of [- c] a run is, event for event, the run with a chunk size of
    [c]. *)
Theorem upload_chunk_sign ujson_loads py_repr fs self c :
  upload_data ujson_loads py_repr fs (with_chunk_size (- c) self)
  = upload_data ujson_loads py_repr fs (with_chunk_size c self).
Proof.
  unfold upload_data.
  change (input_dir (with_chunk_size (- c) self))
    with (input_dir (with_chunk_size c self)).
  destruct (py_open fs (os_path_join (input_dir (with_chunk_size c self)) "data.json"))
    as [t [e | f]]; [reflexivity |].
  rewrite !bind_pair. now rewrite read_loop_chunk_sign.
Qed.

Lemma read_loop_unlimited ujson_loads py_repr self :
  forall lines ins act i,
  below_limit self i (length lines) ->
  read_loop ujson_loads py_repr self lines ins act i
  = read_loop ujson_loads py_repr (no_limit self) lines ins act i.
Proof.
  induction lines as [|l rest IH]; intros ins act i Hlim; [reflexivity |].
  rewrite !read_loop_cons.
  change (action_of ujson_loads py_repr (no_limit self) l)
    with (action_of ujson_loads py_repr self l).
  change (chunk_size (no_limit self)) with (chunk_size self).
  change (limit (no_limit self)) with (@None Z).
  rewrite (below_limit_head _ _ _ Hlim). cbn [limit_reached].
  pose proof (below_limit_tail _ _ _ Hlim) as Htl.
  destruct (action_of ujson_loads py_repr self l) as [e | a]; [reflexivity |].
  rewrite !bind_emit, !bind_lift_inr.
  destruct (py_mod (i + 1) (chunk_size self)) as [e | r]; [reflexivity |].
  rewrite !bind_lift_inr. destruct (r =? 0).
  - rewrite !bind_emit. now rewrite (IH _ _ _ Htl).
  - now rewrite (IH _ _ _ Htl).
Qed.

(** X10.  A limit greater than the number of lines of the file changes
    nothing: the run is, event for event, the run of the same loader
    with the limit unset. *)
Theorem upload_large_limit ujson_loads py_repr fs self lines L :
  fs !! data_path self = Some lines ->
  limit self = Some L ->
  Z.of_nat (length lines) < L ->
  upload_data ujson_loads py_repr fs self
  = upload_data ujson_loads py_repr fs (no_limit self).
Proof.
  intros Hf Hlim HL.
  rewrite !(upload_data_open _ _ _ _ lines) by exact Hf.
  assert (Hbelow : below_limit self 0 (length lines)).
  { intros j Hj. rewrite Hlim. cbn [limit_reached].
    replace (L <=? j) with false by (symmetry; apply Z.leb_gt; lia).
    now rewrite andb_false_r. }
  rewrite (read_loop_unlimited _ _ _ _ _ _ _ Hbelow). reflexivity.
Qed.

(** ** The theorems on the sample export *)

Local Notation sample_upload cs lim data :=
  (upload_data sample_loads sample_repr (sample_fs "settings" data)
     (sample_loader cs lim "data")).

Local Notation sample_records cs lim lines acts :=
  (records sample_loads sample_repr (sample_loader cs lim "data") lines acts).

Local Ltac sample_records_tac :=
  repeat (constructor; [vm_compute; reflexivity |]); constructor.

(** Five lines in chunks of two: batches of 2, 2 and 1. *)
Lemma upload_places_each_record_once_witness :
  sample_records 2 None ["a"; "b"; "c"; "7"; "e"]
    [sample_action "a"; sample_action "b"; sample_action "c";
     sample_action "7"; sample_action "e"]
  /\ lines_read (trace (sample_upload 2 None ["a"; "b"; "c"; "7"; "e"]))
     = ["a"; "b"; "c"; "7"; "e"]
  /\ concat (submitted (trace (sample_upload 2 None ["a"; "b"; "c"; "7"; "e"])))
     = [sample_action "a"; sample_action "b"; sample_action "c";
        sample_action "7"; sample_action "e"]
  /\ awaited (trace (sample_upload 2 None ["a"; "b"; "c"; "7"; "e"]))
     = submitted (trace (sample_upload 2 None ["a"; "b"; "c"; "7"; "e"])).
Proof.
  assert (Hrec : sample_records 2 None ["a"; "b"; "c"; "7"; "e"]
            [sample_action "a"; sample_action "b"; sample_action "c";
             sample_action "7"; sample_action "e"]) by sample_records_tac.
  split; [exact Hrec |].
  destruct (upload_places_each_record_once sample_loads sample_repr
              (sample_fs "settings" ["a"; "b"; "c"; "7"; "e"])
              (sample_loader 2 None "data") _ _ eq_refl Hrec
              ltac:(discriminate))
    as (Hrd & Hcat & _ & _ & _ & Hrun).
  split; [exact Hrd |]. split; [exact Hcat |].
  apply Hrun. discriminate.
Defined.

(** The sizes of those batches, and their number. *)
Lemma upload_batch_sizes_witness :
  sample_records 2 None ["a"; "b"; "c"; "7"; "e"]
    [sample_action "a"; sample_action "b"; sample_action "c";
     sample_action "7"; sample_action "e"]
  /\ Z.of_nat (length (submitted (trace (sample_upload 2 None ["a"; "b"; "c"; "7"; "e"]))))
     = 3
  /\ Forall (fun b => b <> [])
       (submitted (trace (sample_upload 2 None ["a"; "b"; "c"; "7"; "e"]))).
Proof.
  assert (Hrec : sample_records 2 None ["a"; "b"; "c"; "7"; "e"]
            [sample_action "a"; sample_action "b"; sample_action "c";
             sample_action "7"; sample_action "e"]) by sample_records_tac.
  split; [exact Hrec |].
  destruct (upload_batch_sizes sample_loads sample_repr
              (sample_fs "settings" ["a"; "b"; "c"; "7"; "e"])
              (sample_loader 2 None "data") _ eq_refl eq_refl
              ltac:(reflexivity))
    as (_ & Hne & Hall).
  split; [exact (proj2 (Hall _ Hrec)) | exact Hne].
Defined.

(** A limit of three on five lines: the fourth line, which does not
    parse, is never read; the batches are of 2 and 1. *)
Lemma upload_stops_at_limit_witness :
  sample_records 2 (Some 3) ["a"; "b"; "c"]
    [sample_action "a"; sample_action "b"; sample_action "c"]
  /\ outcome (sample_upload 2 (Some 3) ["a"; "b"; "c"; "bad"; "e"]) = inr tt
  /\ lines_read (trace (sample_upload 2 (Some 3) ["a"; "b"; "c"; "bad"; "e"]))
     = ["a"; "b"; "c"]
  /\ concat (submitted (trace (sample_upload 2 (Some 3) ["a"; "b"; "c"; "bad"; "e"])))
     = [sample_action "a"; sample_action "b"; sample_action "c"]
  /\ awaited (trace (sample_upload 2 (Some 3) ["a"; "b"; "c"; "bad"; "e"]))
     = submitted (trace (sample_upload 2 (Some 3) ["a"; "b"; "c"; "bad"; "e"])).
Proof.
  assert (Hrec : sample_records 2 (Some 3) ["a"; "b"; "c"]
            [sample_action "a"; sample_action "b"; sample_action "c"])
    by sample_records_tac.
  split; [exact Hrec |].
  destruct (upload_stops_at_limit sample_loads sample_repr
              (sample_fs "settings" ["a"; "b"; "c"; "bad"; "e"])
              (sample_loader 2 (Some 3) "data") ["a"; "b"; "c"; "bad"; "e"]
              [sample_action "a"; sample_action "b"; sample_action "c"] 3
              eq_refl eq_refl ltac:(cbn; lia) Hrec ltac:(discriminate))
    as (Hout & Hrd & _ & Hcat & Haw & _).
  repeat split; assumption.
Defined.

(** A line that does not parse after three records, in chunks of two:
    the run raises at that line and waits for nothing. *)
Lemma upload_parse_error_skips_wait_witness :
  sample_records 2 None ["a"; "b"; "c"]
    [sample_action "a"; sample_action "b"; sample_action "c"]
  /\ action_of sample_loads sample_repr (sample_loader 2 None "data") "bad"
     = inl JSONDecodeError
  /\ outcome (sample_upload 2 None ["a"; "b"; "c"; "bad"; "e"]) = inl JSONDecodeError
  /\ lines_read (trace (sample_upload 2 None ["a"; "b"; "c"; "bad"; "e"]))
     = ["a"; "b"; "c"; "bad"]
  /\ awaited (trace (sample_upload 2 None ["a"; "b"; "c"; "bad"; "e"])) = [].
Proof.
  assert (Hrec : sample_records 2 None ["a"; "b"; "c"]
            [sample_action "a"; sample_action "b"; sample_action "c"])
    by sample_records_tac.
  split; [exact Hrec |]. split; [reflexivity |].
  destruct (upload_parse_error_skips_wait sample_loads sample_repr
              (sample_fs "settings" ["a"; "b"; "c"; "bad"; "e"])
              (sample_loader 2 None "data") ["a"; "b"; "c"] "bad" ["e"]
              [sample_action "a"; sample_action "b"; sample_action "c"]
              JSONDecodeError eq_refl Hrec eq_refl ltac:(discriminate)
              ltac:(intros j _; reflexivity))
    as (Hout & Hrd & _ & Haw & _).
  repeat split; assumption.
Defined.

(** C4, as stated, fails: in chunks of one, two batches are scheduled
    before the line that does not parse, and neither is waited for. *)
Lemma upload_parse_error_not_awaited :
  outcome (sample_upload 1 None ["a"; "b"; "bad"]) = inl JSONDecodeError
  /\ submitted (trace (sample_upload 1 None ["a"; "b"; "bad"]))
     = [[sample_action "a"]; [sample_action "b"]]
  /\ awaited (trace (sample_upload 1 None ["a"; "b"; "bad"])) = []
  /\ ~ (forall b, b ∈ submitted (trace (sample_upload 1 None ["a"; "b"; "bad"])) ->
                  b ∈ awaited (trace (sample_upload 1 None ["a"; "b"; "bad"]))).
Proof.
  assert (Hs : submitted (trace (sample_upload 1 None ["a"; "b"; "bad"]))
               = [[sample_action "a"]; [sample_action "b"]])
    by (vm_compute; reflexivity).
  assert (Ha : awaited (trace (sample_upload 1 None ["a"; "b"; "bad"])) = [])
    by (vm_compute; reflexivity).
  split; [vm_compute; reflexivity |]. split; [exact Hs |]. split; [exact Ha |].
  rewrite Hs, Ha. intros H. specialize (H [sample_action "a"]).
  eapply not_elem_of_nil. apply H. now left.
Qed.

(** Stripping the sample settings, then stripping the result. *)
Lemma strip_settings_twice_raises_witness :
  strip_settings (PDict sample_settings) = inr (PDict sample_stripped)
  /\ strip_settings (PDict sample_stripped) = inl (KeyError "routing").
Proof.
  assert (H : strip_settings (PDict sample_settings) = inr (PDict sample_stripped))
    by (vm_compute; reflexivity).
  split; [exact H |].
  exact (proj2 (strip_settings_twice_raises _ _ H)).
Defined.

(** C5, as stated, fails: the step does not succeed on settings that are
    already stripped. *)
Lemma strip_settings_not_idempotent :
  strip_settings (PDict sample_settings) = inr (PDict sample_stripped)
  /\ strip_settings (PDict sample_stripped) <> inr (PDict sample_stripped).
Proof.
  split; [vm_compute; reflexivity |].
  assert (H : strip_settings (PDict sample_stripped) = inl (KeyError "routing"))
    by (vm_compute; reflexivity).
  rewrite H. discriminate.
Qed.

(** A cluster that answers without acknowledging: the failure is logged
    and the upload follows. *)
Lemma create_index_rejection_outcomes_witness :
  create_index_with_meta sample_loads (sample_cluster false)
    (sample_fs "settings" ["a"]) (sample_loader 2 None "default")
  = ([Open "dump/settings.json"; Open "dump/mappings.json";
      IndicesCreate "books"
        (PDict (<["settings" := PDict sample_stripped]>
               (<["mappings" := PDict ∅]> ∅)));
      LogInfo "Index creation failed!"], inr tt)
  /\ logged (trace (start sample_loads sample_repr (sample_cluster false)
                     (sample_fs "settings" ["a"]) (sample_loader 2 None "default")))
     = ["Index creation failed!"; "Data upload finished!"]
  /\ outcome (start sample_loads sample_repr (sample_cluster false)
                (sample_fs "settings" ["a"]) (sample_loader 2 None "default"))
     = inr tt.
Proof.
  destruct (create_index_rejection_outcomes sample_loads sample_repr
              (sample_cluster false) (sample_fs "settings" ["a"])
              (sample_loader 2 None "default")
              ["settings"] ["mappings"]
              (PDict (<["index" := PDict sample_settings]> ∅))
              (PDict sample_settings) (PDict sample_stripped) (PDict ∅)
              eq_refl eq_refl eq_refl eq_refl
              ltac:(vm_compute; reflexivity) eq_refl)
    as [Hret _].
  destruct (Hret (<["acknowledged" := PBool false]> ∅) eq_refl eq_refl)
    as [Hmeta Hstart].
  split; [exact Hmeta |].
  rewrite (Hstart eq_refl). split; vm_compute; reflexivity.
Defined.

(** C6, as stated, fails: a client that reports the rejection of the
    create-index call by raising ends the metadata step, and the run,
    with that exception; no line of [data.json] is read. *)
Lemma create_index_rejection_raises :
  create_index_with_meta sample_loads
    (fun _ _ => inl (ClientError "resource_already_exists_exception"))
    (sample_fs "settings" ["a"; "b"]) (sample_loader 2 None "default")
  = ([Open "dump/settings.json"; Open "dump/mappings.json";
      IndicesCreate "books"
        (PDict (<["settings" := PDict sample_stripped]>
               (<["mappings" := PDict ∅]> ∅)))],
     inl (ClientError "resource_already_exists_exception"))
  /\ outcome (start sample_loads sample_repr
                (fun _ _ => inl (ClientError "resource_already_exists_exception"))
                (sample_fs "settings" ["a"; "b"]) (sample_loader 2 None "default"))
     = inl (ClientError "resource_already_exists_exception")
  /\ opened (trace (start sample_loads sample_repr
                (fun _ _ => inl (ClientError "resource_already_exists_exception"))
                (sample_fs "settings" ["a"; "b"]) (sample_loader 2 None "default")))
     = ["dump/settings.json"; "dump/mappings.json"]
  /\ lines_read (trace (start sample_loads sample_repr
                (fun _ _ => inl (ClientError "resource_already_exists_exception"))
                (sample_fs "settings" ["a"; "b"]) (sample_loader 2 None "default")))
     = [].
Proof. repeat split; vm_compute; reflexivity. Qed.

(** A run in [data] mode is the upload alone; a run in [default] mode
    with an acknowledging cluster is the metadata step followed by the
    upload. *)
Lemma start_mode_dispatch_witness :
  start sample_loads sample_repr (sample_cluster true)
    (sample_fs "settings" ["a"; "b"; "c"]) (sample_loader 2 None "data")
  = sample_upload 2 None ["a"; "b"; "c"]
  /\ create_calls (trace (start sample_loads sample_repr (sample_cluster true)
       (sample_fs "settings" ["a"; "b"; "c"]) (sample_loader 2 None "data"))) = []
  /\ opened (trace (start sample_loads sample_repr (sample_cluster true)
       (sample_fs "settings" ["a"; "b"; "c"]) (sample_loader 2 None "default")))
     = ["dump/settings.json"; "dump/mappings.json"; "dump/data.json"].
Proof.
  destruct (start_mode_dispatch sample_loads sample_repr (sample_cluster true)
              (sample_fs "settings" ["a"; "b"; "c"]) (sample_loader 2 None "data"))
    as [Hdata _].
  destruct (Hdata ltac:(discriminate)) as (Hs & _ & Hc).
  split; [exact Hs |]. split; [exact Hc |].
  destruct (start_mode_dispatch sample_loads sample_repr (sample_cluster true)
              (sample_fs "settings" ["a"; "b"; "c"]) (sample_loader 2 None "default"))
    as [_ Hdefault].
  destruct (Hdefault eq_refl) as (_ & _ & Hok & _).
  rewrite (Hok _ ltac:(vm_compute; reflexivity)). vm_compute. reflexivity.
Defined.

(** C7, as stated, fails: in [default] mode, on settings that lack
    [routing], the metadata step raises and [data.json] is never opened. *)
Lemma start_default_upload_not_always :
  mode (sample_loader 2 None "default") = "default"
  /\ start sample_loads sample_repr (sample_cluster true)
       (sample_fs "stripped" ["a"; "b"; "c"]) (sample_loader 2 None "default")
     = ([Open "dump/settings.json"; Open "dump/mappings.json"],
        inl (KeyError "routing"))
  /\ lines_read (trace (start sample_loads sample_repr (sample_cluster true)
       (sample_fs "stripped" ["a"; "b"; "c"]) (sample_loader 2 None "default"))) = []
  /\ submitted (trace (start sample_loads sample_repr (sample_cluster true)
       (sample_fs "stripped" ["a"; "b"; "c"]) (sample_loader 2 None "default"))) = [].
Proof. repeat split; vm_compute; reflexivity. Qed.

(** An empty [data.json]. *)
Lemma upload_empty_stream_raises_witness :
  sample_fs "settings" [] !! data_path (sample_loader 2 None "data") = Some []
  /\ sample_upload 2 None [] = ([Open "dump/data.json"], inl ValueError).
Proof.
  split; [reflexivity |].
  exact (proj1 (upload_empty_stream_raises sample_loads sample_repr
                  (sample_fs "settings" []) (sample_loader 2 None "data") eq_refl)).
Defined.

(** A limit of zero on three lines: all three are read. *)
Lemma upload_limit_zero_is_no_limit_witness :
  sample_upload 2 (Some 0) ["a"; "b"; "c"] = sample_upload 2 None ["a"; "b"; "c"]
  /\ lines_read (trace (sample_upload 2 (Some 0) ["a"; "b"; "c"])) = ["a"; "b"; "c"]
  /\ concat (submitted (trace (sample_upload 2 (Some 0) ["a"; "b"; "c"])))
     = [sample_action "a"; sample_action "b"; sample_action "c"].
Proof.
  destruct (upload_limit_zero_is_no_limit sample_loads sample_repr
              (sample_fs "settings" ["a"; "b"; "c"])
              (sample_loader 2 (Some 0) "data") eq_refl) as [Heq Hall].
  split; [exact Heq |].
  apply (Hall ["a"; "b"; "c"]
           [sample_action "a"; sample_action "b"; sample_action "c"] eq_refl);
    [sample_records_tac | discriminate].
Defined.


(** ** The further properties on the sample export *)

(** A run that ends normally, and one that raises at a line. *)
Lemma upload_waits_for_all_or_nothing_witness :
  awaited (trace (sample_upload 2 None ["a"; "b"; "c"]))
  = [[sample_action "a"; sample_action "b"]; [sample_action "c"]]
  /\ awaited (trace (sample_upload 2 None ["a"; "b"; "bad"])) = []
  /\ last (trace (sample_upload 2 None ["a"; "b"; "bad"])) = Some (ReadLine "bad").
Proof.
  destruct (upload_waits_for_all_or_nothing sample_loads sample_repr
              (sample_fs "settings" ["a"; "b"; "c"]) (sample_loader 2 None "data"))
    as [Hok _].
  destruct (Hok ltac:(vm_compute; reflexivity)) as (Haw & _ & _).
  split; [rewrite Haw; vm_compute; reflexivity |].
  destruct (upload_waits_for_all_or_nothing sample_loads sample_repr
              (sample_fs "settings" ["a"; "b"; "bad"]) (sample_loader 2 None "data"))
    as [_ Hraise].
  destruct (Hraise JSONDecodeError ltac:(vm_compute; reflexivity)) as (Haw' & _).
  split; [exact Haw' | vm_compute; reflexivity].
Defined.

(** The lines read before a line that does not parse, that line
    included, are the start of the file. *)
Lemma upload_reads_a_prefix_witness :
  exists rest,
    ["a"; "b"; "bad"; "e"]
    = lines_read (trace (sample_upload 2 None ["a"; "b"; "bad"; "e"])) ++ rest.
Proof.
  exact (upload_reads_a_prefix sample_loads sample_repr
           (sample_fs "settings" ["a"; "b"; "bad"; "e"])
           (sample_loader 2 None "data") _ eq_refl).
Defined.

(** Three records and then a line that does not parse, in chunks of two:
    the one batch scheduled holds the records of the first two lines. *)
Lemma upload_schedules_what_it_read_witness :
  (exists m,
     records sample_loads sample_repr (sample_loader 2 None "data")
       (take m (lines_read (trace (sample_upload 2 None ["a"; "b"; "c"; "bad"]))))
       (concat (submitted (trace (sample_upload 2 None ["a"; "b"; "c"; "bad"])))))
  /\ concat (submitted (trace (sample_upload 2 None ["a"; "b"; "c"; "bad"])))
     = [sample_action "a"; sample_action "b"].
Proof.
  split; [| vm_compute; reflexivity].
  exact (proj1 (upload_schedules_what_it_read sample_loads sample_repr
                  (sample_fs "settings" ["a"; "b"; "c"; "bad"])
                  (sample_loader 2 None "data"))).
Defined.

(** The action of the line whose [_id] is the number 7. *)
Lemma upload_actions_shape_witness :
  exists l obj id src,
    l ∈ ["a"; "7"] /\ sample_loads l = Some obj
    /\ py_getitem obj "_id" = inr id
    /\ py_getitem obj "_source" = inr src
    /\ sample_action "7"
       = PDict (<["_index" := PStr "books"]>
               (<["_id" := PStr (py_str sample_repr id)]>
               (<["_source" := src]> ∅))).
Proof.
  assert (Hs : submitted (trace (sample_upload 2 None ["a"; "7"]))
               = [[sample_action "a"; sample_action "7"]])
    by (vm_compute; reflexivity).
  destruct (upload_actions_shape sample_loads sample_repr
              (sample_fs "settings" ["a"; "7"]) (sample_loader 2 None "data")
              ["a"; "7"] [sample_action "a"; sample_action "7"] (sample_action "7")
              eq_refl)
    as (l & obj & id & src & Hl & Hobj & Hid & Hsrc & Ha).
  - rewrite Hs. now left.
  - right. now left.
  - exists l, obj, id, src. repeat split; try assumption.
    unfold loads in Hobj. destruct (sample_loads l); [now injection Hobj as -> | discriminate].
Defined.

(** Five records in chunks of two: progress lines at 2 and 4. *)
Lemma upload_progress_lines_witness :
  logged (trace (sample_upload 2 None ["a"; "b"; "c"; "7"; "e"]))
  = ["2 documents loaded"; "4 documents loaded"; "Data upload finished!"].
Proof.
  rewrite (upload_progress_lines sample_loads sample_repr
             (sample_fs "settings" ["a"; "b"; "c"; "7"; "e"])
             (sample_loader 2 None "data") ["a"; "b"; "c"; "7"; "e"]
             [sample_action "a"; sample_action "b"; sample_action "c";
              sample_action "7"; sample_action "e"]
             eq_refl ltac:(sample_records_tac) ltac:(discriminate) eq_refl
             ltac:(discriminate)).
  vm_compute. reflexivity.
Defined.

(** A chunk size of zero. *)
Lemma upload_chunk_zero_raises_witness :
  sample_upload 0 None ["a"; "b"]
  = ([Open "dump/data.json"; ReadLine "a"], inl ZeroDivisionError).
Proof.
  exact (upload_chunk_zero_raises sample_loads sample_repr
           (sample_fs "settings" ["a"; "b"]) (sample_loader 0 None "data")
           "a" ["b"] (sample_action "a") eq_refl eq_refl eq_refl eq_refl).
Defined.

(** A negative limit, with a chunk size of zero. *)
Lemma upload_small_limit_reads_one_witness :
  sample_upload 0 (Some (-3)) ["a"; "b"]
  = ([Open "dump/data.json"; ReadLine "a"; CreateTask [sample_action "a"];
      Wait [[sample_action "a"]]; LogInfo "Data upload finished!"], inr tt).
Proof.
  exact (upload_small_limit_reads_one sample_loads sample_repr
           (sample_fs "settings" ["a"; "b"]) (sample_loader 0 (Some (-3)) "data")
           "a" ["b"] (sample_action "a") (-3) eq_refl eq_refl eq_refl
           ltac:(discriminate) ltac:(discriminate)).
Defined.

(** A limit of nine on three lines. *)
Lemma upload_large_limit_witness :
  sample_upload 2 (Some 9) ["a"; "b"; "c"] = sample_upload 2 None ["a"; "b"; "c"].
Proof.
  exact (upload_large_limit sample_loads sample_repr
           (sample_fs "settings" ["a"; "b"; "c"]) (sample_loader 2 (Some 9) "data")
           ["a"; "b"; "c"] 9 eq_refl eq_refl ltac:(reflexivity)).
Defined.

(** A client that raises. *)
Lemma create_index_client_error_witness :
  start sample_loads sample_repr (fun _ _ => inl (ClientError "400"))
    (sample_fs "settings" ["a"]) (sample_loader 2 None "default")
  = ([Open "dump/settings.json"; Open "dump/mappings.json";
      IndicesCreate "books"
        (PDict (<["settings" := PDict sample_stripped]>
               (<["mappings" := PDict ∅]> ∅)))],
     inl (ClientError "400")).
Proof.
  destruct (create_index_client_error sample_loads sample_repr
              (fun _ _ => inl (ClientError "400"))
              (sample_fs "settings" ["a"]) (sample_loader 2 None "default")
              ["settings"] ["mappings"]
              (PDict (<["index" := PDict sample_settings]> ∅))
              (PDict sample_settings) (PDict sample_stripped) (PDict ∅)
              (ClientError "400")
              eq_refl eq_refl eq_refl eq_refl
              ltac:(vm_compute; reflexivity) eq_refl eq_refl)
    as [_ Hstart].
  exact (Hstart eq_refl).
Defined.

(** A cluster that acknowledges. *)
Lemma create_index_acknowledged_witness :
  logged (trace (start sample_loads sample_repr (sample_cluster true)
                   (sample_fs "settings" ["a"]) (sample_loader 2 None "default")))
  = ["Index created sucessfully!"; "Data upload finished!"]
  /\ outcome (start sample_loads sample_repr (sample_cluster true)
                (sample_fs "settings" ["a"]) (sample_loader 2 None "default"))
     = inr tt.
Proof.
  destruct (create_index_acknowledged sample_loads sample_repr
              (sample_cluster true) (sample_fs "settings" ["a"])
              (sample_loader 2 None "default")
              ["settings"] ["mappings"]
              (PDict (<["index" := PDict sample_settings]> ∅))
              (PDict sample_settings) (PDict sample_stripped) (PDict ∅)
              (<["acknowledged" := PBool true]> ∅)
              eq_refl eq_refl eq_refl eq_refl
              ltac:(vm_compute; reflexivity) eq_refl eq_refl eq_refl)
    as [_ Hstart].
  rewrite (Hstart eq_refl). split; vm_compute; reflexivity.
Defined.

(** Settings that have [routing] but not [provided_name]. *)
Lemma strip_settings_first_missing_witness :
  strip_settings (PDict (<["routing" := PDict ∅]> sample_stripped))
  = inl (KeyError "provided_name").
Proof.
  apply (proj2 (strip_settings_first_missing (<["routing" := PDict ∅]> sample_stripped))
           ["routing"] "provided_name" ["creation_date"; "uuid"; "version"] eq_refl).
  - constructor; [| constructor]. now exists (PDict ∅).
  - reflexivity.
Defined.

(** The first line is read after the metadata step and the opening of
    [data.json]. *)
Lemma start_creates_index_before_upload_witness :
  exists body msg t1',
    [Open "dump/settings.json"; Open "dump/mappings.json";
     IndicesCreate "books"
       (PDict (<["settings" := PDict sample_stripped]>
              (<["mappings" := PDict ∅]> ∅)));
     LogInfo "Index created sucessfully!"; Open "dump/data.json"]
    = Open "dump/settings.json" :: Open "dump/mappings.json"
      :: IndicesCreate "books" body :: LogInfo msg :: t1'.
Proof.
  apply (start_creates_index_before_upload sample_loads sample_repr
           (sample_cluster true) (sample_fs "settings" ["a"])
           (sample_loader 2 None "default")
           [Open "dump/settings.json"; Open "dump/mappings.json";
            IndicesCreate "books"
              (PDict (<["settings" := PDict sample_stripped]>
                     (<["mappings" := PDict ∅]> ∅)));
            LogInfo "Index created sucessfully!"; Open "dump/data.json"]
           (ReadLine "a")
           [CreateTask [sample_action "a"]; Wait [[sample_action "a"]];
            LogInfo "Data upload finished!"]
           eq_refl);
    [vm_compute; reflexivity | exact I].
Defined.

(** The sample address with a library that returns; the same with a
    second [add_connection] that raises; a URL with a scheme. *)
Lemma aenter_address_witness :
  __aenter__ sample_int (fun _ => inr tt) (fun _ _ _ => inr tt)
    (sample_loader 2 None "data")
  = ([NewClient "localhost:9200";
      AddConnection "localhost" 9200; AddConnection "localhost" 9200;
      AddConnection "localhost" 9200; AddConnection "localhost" 9200;
      AddHandler], inr tt)
  /\ __aenter__ sample_int (fun _ => inr tt)
       (fun k _ _ => if (k =? 1)%nat then inl TypeError else inr tt)
       (sample_loader 2 None "data")
     = ([NewClient "localhost:9200"; AddConnection "localhost" 9200], inl TypeError)
  /\ __aenter__ sample_int (fun _ => inr tt) (fun _ _ _ => inr tt)
       {| elastic_address := "http://localhost:9200"; index := "books";
          input_dir := "dump"; chunk_size := 2; mode := "data"; limit := None;
          connection_pool_size := 5 |}
     = ([], inl ValueError).
Proof.
  split; [| split].
  - destruct (proj2 (aenter_address sample_int (fun _ => inr tt)
                       (fun _ _ _ => inr tt) (sample_loader 2 None "data"))
                "localhost" "9200" eq_refl eq_refl eq_refl) as [Hok _].
    apply Hok. reflexivity.
  - destruct (proj2 (aenter_address sample_int (fun _ => inr tt)
                       (fun k _ _ => if (k =? 1)%nat then inl TypeError else inr tt)
                       (sample_loader 2 None "data"))
                "localhost" "9200" eq_refl eq_refl eq_refl) as [_ Hraise].
    apply (Hraise 1%nat TypeError); [vm_compute; lia | | reflexivity].
    intros j Hj. assert (j = 0%nat) as -> by lia. reflexivity.
  - apply (proj1 (aenter_address sample_int (fun _ => inr tt) (fun _ _ _ => inr tt)
             {| elastic_address := "http://localhost:9200"; index := "books";
                input_dir := "dump"; chunk_size := 2; mode := "data"; limit := None;
                connection_pool_size := 5 |})).
    vm_compute. discriminate.
Defined.

(** A run that raises at its second line: the client is still closed.
    An [add_connection] that raises: the client built is not. *)
Lemma main_closes_after_entering_witness :
  clients_closed (fst (main sample_loads sample_repr (sample_cluster true) sample_int
                         (fun _ => inr tt) (fun _ _ _ => inr tt) (inr tt)
                         (sample_fs "settings" ["a"; "bad"])
                         (sample_loader 2 None "data") 0)) = 1%nat
  /\ snd (main sample_loads sample_repr (sample_cluster true) sample_int
            (fun _ => inr tt) (fun _ _ _ => inr tt) (inr tt)
            (sample_fs "settings" ["a"; "bad"])
            (sample_loader 2 None "data") 0) = inl JSONDecodeError
  /\ main sample_loads sample_repr (sample_cluster true) sample_int
       (fun _ => inr tt)
       (fun k _ _ => if (k =? 1)%nat then inl TypeError else inr tt) (inr tt)
       (sample_fs "settings" ["a"; "bad"]) (sample_loader 2 None "data") 0
     = ([NewClient "localhost:9200"; AddConnection "localhost" 9200], inl TypeError).
Proof.
  destruct (main_closes_after_entering sample_loads sample_repr (sample_cluster true)
              sample_int (fun _ => inr tt) (fun _ _ _ => inr tt) (inr tt)
              (sample_fs "settings" ["a"; "bad"])
              (sample_loader 2 None "data") 0) as [Hrun _].
  destruct (Hrun _ eq_refl) as (_ & Hclose & _).
  destruct (Hclose eq_refl) as (Hmain & _ & Hclosed).
  split; [exact Hclosed |]. split; [rewrite Hmain; vm_compute; reflexivity |].
  destruct (main_closes_after_entering sample_loads sample_repr (sample_cluster true)
              sample_int (fun _ => inr tt)
              (fun k _ _ => if (k =? 1)%nat then inl TypeError else inr tt) (inr tt)
              (sample_fs "settings" ["a"; "bad"])
              (sample_loader 2 None "data") 0) as [_ Hraise].
  exact (proj1 (Hraise _ TypeError eq_refl)).
Defined.
